(** * Security-analytics detector and detector-rule resources

    A shallow embedding of [provider/resource_opensearch_sa_detector.go] and
    [provider/resource_opensearch_sa_custom_rule.go].

    The Go functions thread a mutable [*schema.ResourceData] and talk to the
    cluster through a client; both are made explicit here as a state that
    holds the resource data, the remote world and the list of requests that
    were issued.  A run-time panic (an index out of range) is an outcome of
    its own.  Functions of other packages (the HTTP client, [encoding/json],
    the plugin SDK) and helpers declared in other files of the package are
    the fields of a record of collaborators. *)

From Stdlib Require Import String Ascii List ZArith Bool Lia DecimalString.
From stdpp Require Import gmap strings fin_maps.
Import ListNotations.
Local Open Scope list_scope.
Local Open Scope string_scope.

(** ** Generic JSON documents ([interface{}] values produced by encoding/json) *)

Module JSON.

#[local] Set Warnings "-register-all".

(** A number is kept as the text [encoding/json] prints for it: the Go
    constant [1] is ["1"]. *)
Inductive value : Type :=
| Null
| Bool (b : bool)
| Number (text : string)
| Str (s : string)
| Array (items : list value)
| Object (members : list (string * value)).

(** [map[string]interface{}]; a nil map is [None]. *)
Definition object : Type := option (list (string * value)).

Fixpoint lookup (key : string) (ms : list (string * value)) : option value :=
  match ms with
  | [] => None
  | (k, v) :: rest => if String.eqb key k then Some v else lookup key rest
  end.

(** [m[key]] on a Go map: the nil interface when the key is missing or the
    map is nil. *)
Definition index (m : object) (key : string) : value :=
  match m with
  | None => Null
  | Some ms => match lookup key ms with Some v => v | None => Null end
  end.

(** Keys of a Go map are written in sorted order (bytewise). *)
Fixpoint insert_sorted {A : Type} (kv : string * A) (ms : list (string * A))
  : list (string * A) :=
  match ms with
  | [] => [kv]
  | kv' :: rest =>
      if String.leb (fst kv) (fst kv') then kv :: ms
      else kv' :: insert_sorted kv rest
  end.

Definition sort_members {A : Type} (ms : list (string * A)) : list (string * A) :=
  fold_right insert_sorted [] ms.

Fixpoint join (sep : string) (parts : list string) : string :=
  match parts with
  | [] => EmptyString
  | [p] => p
  | p :: rest => p ++ sep ++ join sep rest
  end.

Section Marshal.
(** The string encoder of encoding/json (quotes and escapes). *)
Variable encodeString : string -> string.

Definition member_text (kv : string * string) : string :=
  encodeString (fst kv) ++ ":" ++ snd kv.

Fixpoint Marshal (v : value) : string :=
  match v with
  | Null => "null"
  | Bool true => "true"
  | Bool false => "false"
  | Number text => text
  | Str s => encodeString s
  | Array items => "[" ++ join "," (map Marshal items) ++ "]"
  | Object members =>
      "{" ++ join "," (map member_text
                         (sort_members
                            (map (fun kv => (fst kv, Marshal (snd kv))) members)))
          ++ "}"
  end.

(** [json.Marshal] of a [map[string]interface{}]: a nil map is [null]. *)
Definition MarshalObject (m : object) : string :=
  match m with
  | None => "null"
  | Some members => Marshal (Object members)
  end.
End Marshal.

End JSON.

(** ** URI templates ([github.com/olivere/elastic/uritemplates])

    [Expand] as the package uses it: the templates of this package consist
    of literal text and simple expressions [{name}].  The template is split
    at the braces as the library does; a value is written with every byte
    outside the unreserved set percent-encoded.  Operators, prefixes and
    lists of names do not occur in the package and are rejected here, and
    so is an empty expression, on which the library fails. *)

Module uritemplates.

Definition in_range (lo hi c : ascii) : bool :=
  Ascii.leb lo c && Ascii.leb c hi.

Definition name_char (c : ascii) : bool :=
  in_range "A" "Z" c || in_range "a" "z" c || in_range "0" "9" c
  || Ascii.eqb c "_" || Ascii.eqb c ".".

(** The complement of the library's class [[^A-Za-z0-9\-._~]]. *)
Definition unreserved (c : ascii) : bool :=
  in_range "A" "Z" c || in_range "a" "z" c || in_range "0" "9" c
  || Ascii.eqb c "-" || Ascii.eqb c "." || Ascii.eqb c "_" || Ascii.eqb c "~".

Definition hex (n : nat) : ascii :=
  nth n (list_ascii_of_string "0123456789ABCDEF") "0"%char.

Definition pctEncode (c : ascii) : string :=
  let b := nat_of_ascii c in
  String "%" (String (hex (b / 16)) (String (hex (b mod 16)) EmptyString)).

Fixpoint escape (s : string) : string :=
  match s with
  | EmptyString => EmptyString
  | String c rest =>
      if unreserved c then String c (escape rest)
      else pctEncode c ++ escape rest
  end.

(** [strings.Split s (string sep)] for a one-byte separator. *)
Fixpoint split (sep : ascii) (s : string) : list string :=
  match s with
  | EmptyString => [EmptyString]
  | String c rest =>
      match split sep rest with
      | [] => [EmptyString]
      | p :: ps => if Ascii.eqb c sep then EmptyString :: p :: ps
                   else String c p :: ps
      end
  end.

Fixpoint all_chars (f : ascii -> bool) (s : string) : bool :=
  match s with
  | EmptyString => true
  | String c rest => f c && all_chars f rest
  end.

Inductive templatePart : Type :=
| raw (text : string)
| term (name : string).

Definition parseExpression (expression : string) : string + templatePart :=
  match expression with
  | EmptyString => inl "empty expression"
  | _ => if all_chars name_char expression then inr (term expression)
         else inl ("not a valid name: " ++ expression)
  end.

Fixpoint parse_rest (pieces : list string) : string + list templatePart :=
  match pieces with
  | [] => inr []
  | s :: more =>
      match split "}" s with
      | [expression; literal] =>
          match parseExpression expression with
          | inl e => inl e
          | inr p =>
              match parse_rest more with
              | inl e => inl e
              | inr ps => inr (p :: raw literal :: ps)
              end
          end
      | _ => inl "malformed template"
      end
  end.

Definition parse (rawtemplate : string) : string + list templatePart :=
  match split "{" rawtemplate with
  | [] => inr []
  | s :: more =>
      match split "}" s with
      | [_] =>
          match parse_rest more with
          | inl e => inl e
          | inr ps => inr (raw s :: ps)
          end
      | _ => inl "unexpected }"
      end
  end.

Fixpoint values_lookup (name : string) (values : list (string * string))
  : option string :=
  match values with
  | [] => None
  | (k, v) :: rest => if String.eqb name k then Some v else values_lookup name rest
  end.

Definition expand_part (values : list (string * string)) (p : templatePart) : string :=
  match p with
  | raw text => text
  | term name =>
      match values_lookup name values with
      | Some v => escape v
      | None => EmptyString
      end
  end.

Definition Expand (path : string) (expansions : list (string * string))
  : string + string :=
  match parse path with
  | inl e => inl e
  | inr parts => inr (String.concat EmptyString (map (expand_part expansions) parts))
  end.

End uritemplates.

(** ** Formatting ([fmt]) *)

Module fmt.

Definition decimal (n : nat) : string :=
  NilEmpty.string_of_uint (Nat.to_uint n).

(** The verb [%+v] on a byte slice prints the bytes in decimal between
    brackets. *)
Definition bytes (b : string) : string :=
  "[" ++ JSON.join " " (map (fun c => decimal (nat_of_ascii c))
                            (list_ascii_of_string b)) ++ "]".

End fmt.

(** ** Data of the provider package *)

(** [elastic.PerformRequestOptions], the fields the package sets. *)
Record PerformRequestOptions : Type := {
  Method : string;
  Path : string;
  Body : string;
  ContentType : string
}.

(** [elastic.Response]; only its [Body] is read. *)
Record Response : Type := { ResponseBody : string }.

(** [*schema.ResourceData]: the resource ID and the string attributes of
    the schema ([body], and [category] for rules). *)
Record ResourceData : Type := {
  Id : string;
  fields : gmap string string
}.

Module SaDetectorResponse.
Record t : Type := {
  Version : Z;
  ID : string;
  Detector : JSON.object
}.
(** [new(SaDetectorResponse)] *)
Definition zero : t := {| Version := 0; ID := EmptyString; Detector := None |}.
End SaDetectorResponse.

Module SaDetectorRuleResponse.
Record t : Type := {
  Version : Z;
  ID : string;
  Rule : JSON.object
}.
Definition zero : t := {| Version := 0; ID := EmptyString; Rule := None |}.
End SaDetectorRuleResponse.

(** Modelled from the spec: the type [querySearchResult] is declared outside
    the two resource files.  The spec gives the search response envelope as
    the standard search-hits wrapper with [hits.total.value] and, per hit,
    [_id], [_version] and [_source]; the source is kept as raw JSON because
    the lookups pass it to [json.Unmarshal]. *)
Record searchHit : Type := {
  hit_ID : string;
  hit_Version : Z;
  hit_Source : string
}.

Record querySearchResult : Type := {
  Hits_Total_Value : Z;
  Hits_Hits : list searchHit
}.

(** Go [error] values, by the dynamic types that reach the package. *)
Inductive error (ClientError : Type) : Type :=
| errorString (text : string)      (* errors.New, fmt.Errorf *)
| clientError (e : ClientError)    (* returned by getClient or PerformRequest *)
| jsonError (text : string).       (* returned by encoding/json, passed on as is *)
Arguments errorString {ClientError} text.
Arguments clientError {ClientError} e.
Arguments jsonError {ClientError} text.

(** A Go result pair [(value, err)]: every caller in the package ignores
    the value when [err] is not nil. *)
Inductive result (E A : Type) : Type :=
| Ok (a : A)
| Err (e : E).
Arguments Ok {E A} a.
Arguments Err {E A} e.

(** What a call ends with: it returns, or it panics. *)
Inductive outcome (A : Type) : Type :=
| Done (a : A)
| Panic (msg : string).
Arguments Done {A} a.
Arguments Panic {A} msg.

(** The endpoints and the error texts of the two files. *)
Definition detectors_path : string := "/_plugins/_security_analytics/detectors".
Definition detectors_search_path : string :=
  "/_plugins/_security_analytics/detectors/_search".
Definition detector_template : string :=
  "/_plugins/_security_analytics/detectors/{id}".
Definition rules_search_path : string :=
  "/_plugins/_security_analytics/rules/_search?pre_packaged=false".
Definition rule_create_template : string :=
  "/_plugins/_security_analytics/rules?category={category}".
Definition rule_update_template : string :=
  "/_plugins/_security_analytics/rules/{id}?category={category}&forced=true".
Definition rule_delete_template : string :=
  "/_plugins/_security_analytics/rules/{id}?forced=true".

(** The query of both lookups (a Go map literal). *)
Definition searchQuery (id : string) : JSON.value :=
  JSON.Object
    [("size", JSON.Number "1");
     ("query", JSON.Object
        [("ids", JSON.Object [("values", JSON.Array [JSON.Str id])])])].

(** ** Collaborators outside the two files

    The HTTP client, [encoding/json], the plugin SDK and the helpers of the
    package that are declared in other files.  A decoder's failure carries
    the text of its error. *)

Record Collaborators : Type := {
  ClientError : Type;
  ProviderConf : Type;
  Client : Type;
  World : Type;
  (** The client factory of the provider configuration. *)
  getClient : ProviderConf -> ClientError + Client;
  (** [PerformRequest] of the elastic client: one HTTP exchange with the
      cluster. *)
  PerformRequest :
    Client -> PerformRequestOptions -> World -> (ClientError + Response) * World;
  (** [json.Unmarshal] at the four target types. *)
  Unmarshal_querySearchResult : string -> string + querySearchResult;
  Unmarshal_map : string -> string + JSON.object;
  Unmarshal_SaDetectorResponse : string -> string + SaDetectorResponse.t;
  Unmarshal_SaDetectorRuleResponse : string -> string + SaDetectorRuleResponse.t;
  (** The string encoder of [json.Marshal]. *)
  encodeString : string -> string;
  (** [structure.NormalizeJsonString] of the plugin SDK. *)
  NormalizeJsonString : string -> string + string;
  (** The field writer behind [d.Set] for a string attribute: the stored
      text of a Go value, or the text of its error. *)
  WriteField : string -> JSON.value -> string + string;
  (** [normalizeSaDetector], which rewrites the detector map in place. *)
  normalizeSaDetector : JSON.object -> JSON.object;
  (** The NotFound predicate on errors. *)
  IsSearchNotFound : error ClientError -> bool
}.

(** The state a call runs in. *)
Record State (env : Collaborators) : Type := {
  rd : ResourceData;                       (* the object behind [d] *)
  world : World env;                       (* the cluster and the network *)
  requests : list PerformRequestOptions    (* requests issued so far *)
}.
Arguments rd {env} s.
Arguments world {env} s.
Arguments requests {env} s.

Definition M (env : Collaborators) (A : Type) : Type :=
  State env -> outcome A * State env.

Definition ret {env : Collaborators} {A : Type} (a : A) : M env A :=
  fun st => (Done a, st).

Definition bind {env : Collaborators} {A B : Type} (m : M env A) (k : A -> M env B)
  : M env B :=
  fun st =>
    match m st with
    | (Done a, st') => k a st'
    | (Panic msg, st') => (Panic msg, st')
    end.

Notation "'do' x <- m ; k" := (bind m (fun x => k))
  (at level 10, x name, m at level 100, k at level 200).
Notation "'run' m ; k" := (bind m (fun _ => k))
  (at level 10, m at level 100, k at level 200).

Section Provider.

Variable env : Collaborators.

#[local] Abbreviation error := (error (ClientError env)).
#[local] Abbreviation result := (result error).
#[local] Abbreviation M := (M env).
#[local] Abbreviation getClient := (getClient env).
#[local] Abbreviation PerformRequest := (PerformRequest env).
#[local] Abbreviation Unmarshal_querySearchResult := (Unmarshal_querySearchResult env).
#[local] Abbreviation Unmarshal_map := (Unmarshal_map env).
#[local] Abbreviation Unmarshal_SaDetectorResponse := (Unmarshal_SaDetectorResponse env).
#[local] Abbreviation Unmarshal_SaDetectorRuleResponse :=
  (Unmarshal_SaDetectorRuleResponse env).
#[local] Abbreviation encodeString := (encodeString env).
#[local] Abbreviation NormalizeJsonString := (NormalizeJsonString env).
#[local] Abbreviation WriteField := (WriteField env).
#[local] Abbreviation normalizeSaDetector := (normalizeSaDetector env).
#[local] Abbreviation IsSearchNotFound := (IsSearchNotFound env).

(** *** Effects on the resource data and the client *)

(** [d.Id()] *)
Definition d_Id : M string := fun st => (Done (Id (rd st)), st).

(** [d.SetId(v)] *)
Definition d_SetId (v : string) : M unit := fun st =>
  (Done tt, {| rd := {| Id := v; fields := fields (rd st) |};
               world := world st; requests := requests st |}).

(** [d.Get(key).(string)]: the zero value when the attribute is unset. *)
Definition d_Get (key : string) : M string := fun st =>
  (Done (default EmptyString (fields (rd st) !! key)), st).

(** [d.Set(key, value)]: writes the one attribute, or fails and writes
    nothing. *)
Definition d_Set (key : string) (value : JSON.value) : M (option error) := fun st =>
  match WriteField key value with
  | inl msg => (Done (Some (errorString msg)), st)
  | inr text =>
      (Done None, {| rd := {| Id := Id (rd st);
                              fields := <[key := text]> (fields (rd st)) |};
                     world := world st; requests := requests st |})
  end.

(** [osClient.PerformRequest(context.TODO(), options)] *)
Definition performRequest (osClient : Client env) (options : PerformRequestOptions)
  : M (ClientError env + Response) := fun st =>
  let (r, w) := PerformRequest osClient options (world st) in
  (Done r, {| rd := rd st; world := w;
              requests := (requests st ++ [options])%list |}).

(** [hits[0]]: a run-time panic on an empty slice. *)
Definition first_hit (hits : list searchHit) : M searchHit :=
  match hits with
  | h :: _ => ret h
  | [] => fun st => (Panic "runtime error: index out of range [0] with length 0", st)
  end.

(** *** resource_opensearch_sa_detector.go

    Calls of [log.Printf] are left out.  [json.Marshal] of the query and
    of a decoded document cannot fail, so the branches on its error are
    not reachable and are not written. *)

Definition resourceOpensearchSaDetectorSearch (SaDetectorID : string)
    (m : ProviderConf env) : M (result SaDetectorResponse.t) :=
  let query := searchQuery SaDetectorID in
  let queryBody := JSON.Marshal encodeString query in
  match getClient m with
  | inl err => ret (Err (clientError err))
  | inr osClient =>
    do res <- performRequest osClient
                {| Method := "POST";
                   Path := detectors_search_path;
                   Body := queryBody;
                   ContentType := "application/json" |};
    match res with
    | inl err => ret (Err (clientError err))
    | inr res =>
      match Unmarshal_querySearchResult (ResponseBody res) with
      | inl err =>
          ret (Err (errorString ("error unmarshalling search result: " ++ err)))
      | inr searchResult =>
        if (Hits_Total_Value searchResult =? 0)%Z then
          ret (Err (errorString
                      ("no search results found for ID: " ++ SaDetectorID)))
        else
          do hit <- first_hit (Hits_Hits searchResult);
          match Unmarshal_map (hit_Source hit) with
          | inl err =>
              ret (Err (errorString
                          ("error unmarshalling detector source: " ++ err)))
          | inr detector =>
              ret (Ok {| SaDetectorResponse.Version := hit_Version hit;
                         SaDetectorResponse.ID := hit_ID hit;
                         SaDetectorResponse.Detector :=
                           normalizeSaDetector detector |})
          end
      end
    end
  end.

Definition resourceOpensearchPostSaDetector (m : ProviderConf env)
  : M (result SaDetectorResponse.t) :=
  do SaDetectorJSON <- d_Get "body";
  let path := detectors_path in
  match getClient m with
  | inl err => ret (Err (clientError err))
  | inr osClient =>
    do res <- performRequest osClient
                {| Method := "POST"; Path := path;
                   Body := SaDetectorJSON; ContentType := EmptyString |};
    match res with
    | inl err => ret (Err (clientError err))
    | inr res =>
      let body := ResponseBody res in
      match Unmarshal_SaDetectorResponse body with
      | inl err =>
          ret (Err (errorString ("error unmarshalling detector body: "
                                   ++ err ++ ": " ++ fmt.bytes body)))
      | inr response =>
          ret (Ok {| SaDetectorResponse.Version := SaDetectorResponse.Version response;
                     SaDetectorResponse.ID := SaDetectorResponse.ID response;
                     SaDetectorResponse.Detector :=
                       normalizeSaDetector (SaDetectorResponse.Detector response) |})
      end
    end
  end.

Definition resourceOpensearchPutSaDetector (m : ProviderConf env)
  : M (result SaDetectorResponse.t) :=
  do SaDetectorJSON <- d_Get "body";
  do id <- d_Id;
  match uritemplates.Expand detector_template [("id", id)] with
  | inl err =>
      ret (Err (errorString ("error building URL path for detector: " ++ err)))
  | inr path =>
    match getClient m with
    | inl err => ret (Err (clientError err))
    | inr osClient =>
      do res <- performRequest osClient
                  {| Method := "PUT"; Path := path;
                     Body := SaDetectorJSON; ContentType := EmptyString |};
      match res with
      | inl err => ret (Err (clientError err))
      | inr res =>
        let body := ResponseBody res in
        match Unmarshal_SaDetectorResponse body with
        | inl err =>
            ret (Err (errorString ("error unmarshalling detector body: "
                                     ++ err ++ ": " ++ fmt.bytes body)))
        | inr response => ret (Ok response)
        end
      end
    end
  end.

Definition resourceOpensearchSaDetectorRead (m : ProviderConf env) : M (option error) :=
  do id <- d_Id;
  do r <- resourceOpensearchSaDetectorSearch id m;
  match r with
  | Err err =>
      if IsSearchNotFound err then
        run d_SetId EmptyString;
        ret None
      else ret (Some err)
  | Ok res =>
      run d_SetId (SaDetectorResponse.ID res);
      let SaDetectorJSON :=
        JSON.MarshalObject encodeString (SaDetectorResponse.Detector res) in
      match NormalizeJsonString SaDetectorJSON with
      | inl err => ret (Some (jsonError err))
      | inr SaDetectorJsonNormalized =>
          d_Set "body" (JSON.Str SaDetectorJsonNormalized)
      end
  end.

Definition resourceOpensearchSaDetectorCreate (m : ProviderConf env) : M (option error) :=
  do r <- resourceOpensearchPostSaDetector m;
  match r with
  | Err err => ret (Some err)
  | Ok res =>
      run d_SetId (SaDetectorResponse.ID res);
      resourceOpensearchSaDetectorRead m
  end.

Definition resourceOpensearchSaDetectorUpdate (m : ProviderConf env) : M (option error) :=
  do r <- resourceOpensearchPutSaDetector m;
  match r with
  | Err err => ret (Some err)
  | Ok _ => resourceOpensearchSaDetectorRead m
  end.

Definition resourceOpensearchSaDetectorGet (SaDetectorID : string)
    (m : ProviderConf env) : M (result SaDetectorResponse.t) :=
  match uritemplates.Expand detector_template [("id", SaDetectorID)] with
  | inl err =>
      ret (Err (errorString ("error building URL path for detector: " ++ err)))
  | inr path =>
    match getClient m with
    | inl err => ret (Err (clientError err))
    | inr osClient =>
      do res <- performRequest osClient
                  {| Method := "GET"; Path := path;
                     Body := EmptyString; ContentType := EmptyString |};
      match res with
      | inl err => ret (Err (clientError err))
      | inr res =>
        let body := ResponseBody res in
        match Unmarshal_SaDetectorResponse body with
        | inl err =>
            ret (Err (errorString ("error unmarshalling detector body: "
                                     ++ err ++ ": " ++ fmt.bytes body)))
        | inr response =>
            ret (Ok {| SaDetectorResponse.Version := SaDetectorResponse.Version response;
                       SaDetectorResponse.ID := SaDetectorResponse.ID response;
                       SaDetectorResponse.Detector :=
                         normalizeSaDetector (SaDetectorResponse.Detector response) |})
        end
      end
    end
  end.

Definition resourceOpensearchSaDetectorDelete (m : ProviderConf env) : M (option error) :=
  do id <- d_Id;
  match uritemplates.Expand detector_template [("id", id)] with
  | inl err =>
      ret (Some (errorString ("error building URL path for detector: " ++ err)))
  | inr path =>
    match getClient m with
    | inl err => ret (Some (clientError err))
    | inr osClient =>
      do res <- performRequest osClient
                  {| Method := "DELETE"; Path := path;
                     Body := EmptyString; ContentType := EmptyString |};
      match res with
      | inl err => ret (Some (clientError err))
      | inr _ => ret None
      end
    end
  end.

(** *** resource_opensearch_sa_custom_rule.go *)

Definition resourceOpensearchSaDetectorRuleGet (SaDetectorRuleID : string)
    (m : ProviderConf env) : M (result SaDetectorRuleResponse.t) :=
  let query := searchQuery SaDetectorRuleID in
  let queryBody := JSON.Marshal encodeString query in
  match getClient m with
  | inl err => ret (Err (clientError err))
  | inr osClient =>
    do res <- performRequest osClient
                {| Method := "POST";
                   Path := rules_search_path;
                   Body := queryBody;
                   ContentType := "application/json" |};
    match res with
    | inl err => ret (Err (clientError err))
    | inr res =>
      match Unmarshal_querySearchResult (ResponseBody res) with
      | inl err =>
          ret (Err (errorString ("error unmarshalling search result: " ++ err)))
      | inr searchResult =>
        if (Hits_Total_Value searchResult =? 0)%Z then
          ret (Err (errorString
                      ("no search results found for ID: " ++ SaDetectorRuleID)))
        else
          do hit <- first_hit (Hits_Hits searchResult);
          match Unmarshal_map (hit_Source hit) with
          | inl err =>
              ret (Err (errorString ("error unmarshalling rule source: " ++ err)))
          | inr rule =>
              ret (Ok {| SaDetectorRuleResponse.Version := hit_Version hit;
                         SaDetectorRuleResponse.ID := hit_ID hit;
                         SaDetectorRuleResponse.Rule := rule |})
          end
      end
    end
  end.

Definition resourceOpensearchPostSaDetectorRule (m : ProviderConf env)
  : M (result SaDetectorRuleResponse.t) :=
  do SaDetectorRuleBody <- d_Get "body";
  do Category <- d_Get "category";
  match uritemplates.Expand rule_create_template [("category", Category)] with
  | inl err =>
      ret (Err (errorString ("error building URL path for detector rule: " ++ err)))
  | inr path =>
    match getClient m with
    | inl err => ret (Err (clientError err))
    | inr osClient =>
      do res <- performRequest osClient
                  {| Method := "POST"; Path := path;
                     Body := SaDetectorRuleBody;
                     ContentType := "application/json" |};
      match res with
      | inl err => ret (Err (clientError err))
      | inr res =>
        let body := ResponseBody res in
        match Unmarshal_SaDetectorRuleResponse body with
        | inl err =>
            ret (Err (errorString ("error unmarshalling detector rule body: "
                                     ++ err ++ ": " ++ fmt.bytes body)))
        | inr response => ret (Ok response)
        end
      end
    end
  end.

Definition resourceOpensearchPutSaDetectorRule (m : ProviderConf env)
  : M (result SaDetectorRuleResponse.t) :=
  do SaDetectorRuleJSON <- d_Get "body";
  do Category <- d_Get "category";
  do id <- d_Id;
  match uritemplates.Expand rule_update_template
          [("id", id); ("category", Category)] with
  | inl err =>
      ret (Err (errorString ("error building URL path for detector rule: " ++ err)))
  | inr path =>
    match getClient m with
    | inl err => ret (Err (clientError err))
    | inr osClient =>
      do res <- performRequest osClient
                  {| Method := "PUT"; Path := path;
                     Body := SaDetectorRuleJSON;
                     ContentType := "application/json" |};
      match res with
      | inl err => ret (Err (clientError err))
      | inr res =>
        let body := ResponseBody res in
        match Unmarshal_SaDetectorRuleResponse body with
        | inl err =>
            ret (Err (errorString ("error unmarshalling detector rule body: "
                                     ++ err ++ ": " ++ fmt.bytes body)))
        | inr response => ret (Ok response)
        end
      end
    end
  end.

Definition resourceOpensearchSaDetectorRuleRead (m : ProviderConf env) : M (option error) :=
  do id <- d_Id;
  do r <- resourceOpensearchSaDetectorRuleGet id m;
  match r with
  | Err err =>
      if IsSearchNotFound err then
        run d_SetId EmptyString;
        ret None
      else ret (Some err)
  | Ok res =>
      run d_SetId (SaDetectorRuleResponse.ID res);
      d_Set "body" (JSON.index (SaDetectorRuleResponse.Rule res) "rule")
  end.

Definition resourceOpensearchSaDetectorRuleCreate (m : ProviderConf env) : M (option error) :=
  do r <- resourceOpensearchPostSaDetectorRule m;
  match r with
  | Err err => ret (Some err)
  | Ok res =>
      run d_SetId (SaDetectorRuleResponse.ID res);
      resourceOpensearchSaDetectorRuleRead m
  end.

Definition resourceOpensearchSaDetectorRuleUpdate (m : ProviderConf env) : M (option error) :=
  do r <- resourceOpensearchPutSaDetectorRule m;
  match r with
  | Err err => ret (Some err)
  | Ok _ => resourceOpensearchSaDetectorRuleRead m
  end.

Definition resourceOpensearchSaDetectorRuleDelete (m : ProviderConf env) : M (option error) :=
  do id <- d_Id;
  match uritemplates.Expand rule_delete_template [("id", id)] with
  | inl err =>
      ret (Some (errorString ("error building URL path for detector: " ++ err)))
  | inr path =>
    match getClient m with
    | inl err => ret (Some (clientError err))
    | inr osClient =>
      do res <- performRequest osClient
                  {| Method := "DELETE"; Path := path;
                     Body := EmptyString; ContentType := EmptyString |};
      match res with
      | inl err => ret (Some (clientError err))
      | inr _ => ret None
      end
    end
  end.

End Provider.

(** ** resource_opensearch_sa_custom_rule_test.go

    The two checks of the acceptance test.  The resources of the root
    module are a Go map: they are kept as the list of its entries in the
    order the [range] loop meets them, which Go leaves open; a name is
    looked up among them.  [%q] is [strconv.Quote], a variable here. *)

Record ResourceState : Type := {
  rs_Type : string;
  rs_Primary_ID : string
}.

Definition rule_type : string := "opensearch_sa_custom_rule".

Fixpoint resources_lookup (name : string) (resources : list (string * ResourceState))
  : option ResourceState :=
  match resources with
  | [] => None
  | (n, rs) :: rest => if String.eqb name n then Some rs else resources_lookup name rest
  end.

Section Acceptance.

Variable env : Collaborators.
Variable strconv_Quote : string -> string.

Definition testCheckOpensearchSaCustomRuleExists (name : string)
    (resources : list (string * ResourceState)) (meta : ProviderConf env)
  : M env (option (error (ClientError env))) :=
  match resources_lookup name resources with
  | None => ret (Some (errorString ("Not found: " ++ name)))
  | Some rs =>
      if String.eqb (rs_Primary_ID rs) EmptyString then
        ret (Some (errorString "No rule ID is set"))
      else
        do r <- resourceOpensearchSaDetectorRuleGet env (rs_Primary_ID rs) meta;
        match r with
        | Err err => ret (Some err)
        | Ok _ => ret None
        end
  end.

Fixpoint testCheckOpensearchSaCustomRuleDestroy
    (resources : list (string * ResourceState)) (meta : ProviderConf env)
  : M env (option (error (ClientError env))) :=
  match resources with
  | [] => ret None
  | (_, rs) :: rest =>
      if negb (String.eqb (rs_Type rs) rule_type) then
        testCheckOpensearchSaCustomRuleDestroy rest meta
      else
        do r <- resourceOpensearchSaDetectorRuleGet env (rs_Primary_ID rs) meta;
        match r with
        | Err _ => ret None (* should be not found error *)
        | Ok _ =>
            ret (Some (errorString
                         ("Rule " ++ strconv_Quote (rs_Primary_ID rs)
                          ++ " still exists")))
        end
  end.

End Acceptance.

(** ** The NotFound predicate *)

(** Modelled from the spec: [IsSearchNotFound] is declared outside the two
    resource files.  The spec describes it as telling the NotFound condition
    (zero search hits) from generic errors by inspecting the string and
    shape of the error: an error that consists of a text alone, and whose
    text begins with the words of the zero-hit error of the lookups. *)
Definition IsSearchNotFound_spec {ClientError : Type} (err : error ClientError) : bool :=
  match err with
  | errorString text => String.prefix "no search results found" text
  | clientError _ => false
  | jsonError _ => false
  end.

(** Whether [needle] occurs in [text]. *)
Definition contains (needle text : string) : bool :=
  match String.index 0 needle text with
  | Some _ => true
  | None => false
  end.

(** ** A test double for the collaborators

    A reader for a subset of JSON (no fractions, exponents or [\u] escapes),
    decoders that fill the Go types from the parsed document by their
    [json] tags, and a client that answers from a queue of prepared replies.
    The scenarios of the specification are run against it. *)

Module TestDouble.

Import JSON.

Definition dquote : ascii := "034".

(** JSON texts are written with ['] where the document has a double
    quote. *)
Fixpoint json_text (s : string) : string :=
  match s with
  | EmptyString => EmptyString
  | String c rest =>
      String (if Ascii.eqb c "'" then dquote else c) (json_text rest)
  end.

Definition is_space (c : ascii) : bool :=
  Ascii.eqb c " " || Ascii.eqb c "009" || Ascii.eqb c "010" || Ascii.eqb c "013".

Definition is_digit (c : ascii) : bool := uritemplates.in_range "0" "9" c.

Fixpoint skip_space (s : string) : string :=
  match s with
  | String c rest => if is_space c then skip_space rest else s
  | EmptyString => s
  end.

Definition eof : string := "unexpected end of JSON input".

Definition invalid (c : ascii) (context : string) : string :=
  "invalid character '" ++ String c "' " ++ context.

(** The text after an opening quote, up to the closing one. *)
Fixpoint read_string (s : string) : string + (string * string) :=
  match s with
  | EmptyString => inl eof
  | String c rest =>
      if Ascii.eqb c dquote then inr (EmptyString, rest)
      else if Ascii.eqb c "\" then
        match rest with
        | EmptyString => inl eof
        | String e rest' =>
            let unescaped :=
              if Ascii.eqb e "n" then Some "010"%char
              else if Ascii.eqb e "t" then Some "009"%char
              else if Ascii.eqb e "r" then Some "013"%char
              else if Ascii.eqb e dquote || Ascii.eqb e "\" || Ascii.eqb e "/"
                   then Some e
              else None in
            match unescaped with
            | None => inl (invalid e "in string escape code")
            | Some u =>
                match read_string rest' with
                | inl err => inl err
                | inr (text, after) => inr (String u text, after)
                end
            end
        end
      else
        match read_string rest with
        | inl err => inl err
        | inr (text, after) => inr (String c text, after)
        end
  end.

Fixpoint read_digits (s : string) : string * string :=
  match s with
  | String c rest =>
      if is_digit c then
        let (ds, after) := read_digits rest in (String c ds, after)
      else (EmptyString, s)
  | EmptyString => (EmptyString, s)
  end.

Definition read_literal (word : string) (v : value) (s : string)
  : string + (value * string) :=
  if String.prefix word s
  then inr (v, String.substring (String.length word)
                 (String.length s - String.length word) s)
  else match s with
       | String c _ => inl (invalid c ("in literal " ++ word))
       | EmptyString => inl eof
       end.

Fixpoint read_value (fuel : nat) (s : string) : string + (value * string) :=
  match fuel with
  | O => inl "exceeded max depth"
  | S fuel' =>
    match skip_space s with
    | EmptyString => inl eof
    | String c rest =>
        if Ascii.eqb c "{" then
          match skip_space rest with
          | String "}" after => inr (Object [], after)
          | _ =>
              match read_members fuel' rest with
              | inl err => inl err
              | inr (ms, after) => inr (Object ms, after)
              end
          end
        else if Ascii.eqb c "[" then
          match skip_space rest with
          | String "]" after => inr (Array [], after)
          | _ =>
              match read_items fuel' rest with
              | inl err => inl err
              | inr (vs, after) => inr (Array vs, after)
              end
          end
        else if Ascii.eqb c dquote then
          match read_string rest with
          | inl err => inl err
          | inr (text, after) => inr (Str text, after)
          end
        else if Ascii.eqb c "-" then
          match read_digits rest with
          | (EmptyString, _) => inl "invalid character in numeric literal"
          | (ds, after) => inr (Number (String c ds), after)
          end
        else if is_digit c then
          let (ds, after) := read_digits (String c rest) in
          inr (Number ds, after)
        else if Ascii.eqb c "t" then read_literal "true" (Bool true) (String c rest)
        else if Ascii.eqb c "f" then read_literal "false" (Bool false) (String c rest)
        else if Ascii.eqb c "n" then read_literal "null" Null (String c rest)
        else inl (invalid c "looking for beginning of value")
    end
  end
with read_members (fuel : nat) (s : string)
  : string + (list (string * value) * string) :=
  match fuel with
  | O => inl "exceeded max depth"
  | S fuel' =>
    match skip_space s with
    | EmptyString => inl eof
    | String c rest =>
        if Ascii.eqb c dquote then
          match read_string rest with
          | inl err => inl err
          | inr (key, after_key) =>
              match skip_space after_key with
              | EmptyString => inl eof
              | String colon after_colon =>
                  if Ascii.eqb colon ":" then
                    match read_value fuel' after_colon with
                    | inl err => inl err
                    | inr (v, after_value) =>
                        match skip_space after_value with
                        | EmptyString => inl eof
                        | String d after =>
                            if Ascii.eqb d "}" then inr ([(key, v)], after)
                            else if Ascii.eqb d "," then
                              match read_members fuel' after with
                              | inl err => inl err
                              | inr (ms, after') => inr ((key, v) :: ms, after')
                              end
                            else inl (invalid d "after object key:value pair")
                        end
                    end
                  else inl (invalid colon "after object key")
              end
          end
        else inl (invalid c "looking for beginning of object key string")
    end
  end
with read_items (fuel : nat) (s : string) : string + (list value * string) :=
  match fuel with
  | O => inl "exceeded max depth"
  | S fuel' =>
    match read_value fuel' s with
    | inl err => inl err
    | inr (v, after_value) =>
        match skip_space after_value with
        | EmptyString => inl eof
        | String d after =>
            if Ascii.eqb d "]" then inr ([v], after)
            else if Ascii.eqb d "," then
              match read_items fuel' after with
              | inl err => inl err
              | inr (vs, after') => inr (v :: vs, after')
              end
            else inl (invalid d "after array element")
        end
    end
  end.

(** A whole document: one value and nothing but space after it. *)
Definition parse (s : string) : string + value :=
  match read_value (S (String.length s)) s with
  | inl err => inl err
  | inr (v, after) =>
      match skip_space after with
      | EmptyString => inr v
      | String c _ => inl (invalid c "after top-level value")
      end
  end.

(** *** Filling Go values from a parsed document *)

Definition kind_of (v : value) : string :=
  match v with
  | Null => "null" | Bool _ => "bool" | Number _ => "number"
  | Str _ => "string" | Array _ => "array" | Object _ => "object"
  end.

Definition type_error (v : value) (target : string) : string :=
  "json: cannot unmarshal " ++ kind_of v ++ " into Go value of type " ++ target.

Definition lower (c : ascii) : ascii :=
  if uritemplates.in_range "A" "Z" c then ascii_of_nat (nat_of_ascii c + 32) else c.

Fixpoint fold_case (s : string) : string :=
  match s with
  | EmptyString => EmptyString
  | String c rest => String (lower c) (fold_case rest)
  end.

(** Keys match a tag exactly or up to case. *)
Definition EqualFold (a b : string) : bool :=
  String.eqb (fold_case a) (fold_case b).

(** The member that ends up in the field with this tag: the last match. *)
Fixpoint member (tag : string) (ms : list (string * value)) : option value :=
  match ms with
  | [] => None
  | (k, v) :: rest =>
      match member tag rest with
      | Some v' => Some v'
      | None => if EqualFold k tag then Some v else None
      end
  end.

Fixpoint digits_value (s : string) (acc : Z) : Z :=
  match s with
  | EmptyString => acc
  | String c rest => digits_value rest (10 * acc + Z.of_nat (nat_of_ascii c - 48))
  end.

Definition int_of_text (text : string) : Z :=
  match text with
  | String "-" ds => - digits_value ds 0
  | _ => digits_value text 0
  end.

Definition as_int (v : option value) : string + Z :=
  match v with
  | None | Some Null => inr 0%Z
  | Some (Number text) => inr (int_of_text text)
  | Some v => inl (type_error v "int")
  end.

Definition as_string (v : option value) : string + string :=
  match v with
  | None | Some Null => inr EmptyString
  | Some (Str s) => inr s
  | Some v => inl (type_error v "string")
  end.

(** A struct: a missing or null document leaves the zero value. *)
Definition as_struct (target : string) (v : option value)
  : string + list (string * value) :=
  match v with
  | None | Some Null => inr []
  | Some (Object ms) => inr ms
  | Some v => inl (type_error v target)
  end.

Fixpoint map_set (k : string) (v : value) (ms : list (string * value))
  : list (string * value) :=
  match ms with
  | [] => [(k, v)]
  | (k', v') :: rest =>
      if String.eqb k k' then (k, v) :: rest else (k', v') :: map_set k v rest
  end.

(** A Go map: a key that occurs twice keeps its last value. *)
Definition as_map (v : option value) : string + object :=
  match v with
  | None | Some Null => inr None
  | Some (Object ms) =>
      inr (Some (fold_left (fun acc kv => map_set (fst kv) (snd kv) acc) ms []))
  | Some v => inl (type_error v "map[string]interface {}")
  end.

(** Strings as the reader above takes them back. *)
Fixpoint quote_body (s : string) : string :=
  match s with
  | EmptyString => EmptyString
  | String c rest =>
      if Ascii.eqb c dquote || Ascii.eqb c "\" then String "\" (String c (quote_body rest))
      else if Ascii.eqb c "010" then "\n" ++ quote_body rest
      else if Ascii.eqb c "009" then "\t" ++ quote_body rest
      else if Ascii.eqb c "013" then "\r" ++ quote_body rest
      else String c (quote_body rest)
  end.

Definition quote (s : string) : string :=
  String dquote (quote_body s ++ String dquote EmptyString).

(** The text of a member kept as [json.RawMessage]; empty when missing. *)
Definition as_raw (v : option value) : string :=
  match v with
  | None => EmptyString
  | Some v => Marshal quote v
  end.

Definition bind_text {A B : Type} (r : string + A) (k : A -> string + B)
  : string + B :=
  match r with
  | inl err => inl err
  | inr a => k a
  end.

Definition decode_hit (v : value) : string + searchHit :=
  bind_text (as_struct "struct" (Some v)) (fun ms =>
  bind_text (as_string (member "_id" ms)) (fun id =>
  bind_text (as_int (member "_version" ms)) (fun version =>
  inr {| hit_ID := id; hit_Version := version;
         hit_Source := as_raw (member "_source" ms) |}))).

Fixpoint decode_hits (items : list value) : string + list searchHit :=
  match items with
  | [] => inr []
  | v :: rest =>
      bind_text (decode_hit v) (fun h =>
      bind_text (decode_hits rest) (fun hs => inr (h :: hs)))
  end.

Definition as_hits (v : option value) : string + list searchHit :=
  match v with
  | None | Some Null => inr []
  | Some (Array items) => decode_hits items
  | Some v => inl (type_error v "[]struct")
  end.

Definition decode_querySearchResult (v : value) : string + querySearchResult :=
  bind_text (as_struct "provider.querySearchResult" (Some v)) (fun top =>
  bind_text (as_struct "struct" (member "hits" top)) (fun hits =>
  bind_text (as_struct "struct" (member "total" hits)) (fun total =>
  bind_text (as_int (member "value" total)) (fun value =>
  bind_text (as_hits (member "hits" hits)) (fun hs =>
  inr {| Hits_Total_Value := value; Hits_Hits := hs |}))))).

Definition decode_SaDetectorResponse (v : value) : string + SaDetectorResponse.t :=
  bind_text (as_struct "provider.SaDetectorResponse" (Some v)) (fun ms =>
  bind_text (as_int (member "_version" ms)) (fun version =>
  bind_text (as_string (member "_id" ms)) (fun id =>
  bind_text (as_map (member "detector" ms)) (fun detector =>
  inr {| SaDetectorResponse.Version := version;
         SaDetectorResponse.ID := id;
         SaDetectorResponse.Detector := detector |})))).

Definition decode_SaDetectorRuleResponse (v : value)
  : string + SaDetectorRuleResponse.t :=
  bind_text (as_struct "provider.SaDetectorRuleResponse" (Some v)) (fun ms =>
  bind_text (as_int (member "_version" ms)) (fun version =>
  bind_text (as_string (member "_id" ms)) (fun id =>
  bind_text (as_map (member "rule" ms)) (fun rule =>
  inr {| SaDetectorRuleResponse.Version := version;
         SaDetectorRuleResponse.ID := id;
         SaDetectorRuleResponse.Rule := rule |})))).

(** *** The string encoder of [json.Marshal], on ASCII text *)

Definition hex_lower (n : nat) : ascii :=
  nth n (list_ascii_of_string "0123456789abcdef") "0"%char.

Fixpoint encode_body (s : string) : string :=
  match s with
  | EmptyString => EmptyString
  | String c rest =>
      let b := nat_of_ascii c in
      if Ascii.eqb c dquote || Ascii.eqb c "\" then String "\" (String c (encode_body rest))
      else if Ascii.eqb c "010" then "\n" ++ encode_body rest
      else if Ascii.eqb c "009" then "\t" ++ encode_body rest
      else if Ascii.eqb c "013" then "\r" ++ encode_body rest
      else if (b <? 32)%nat || Ascii.eqb c "<" || Ascii.eqb c ">" || Ascii.eqb c "&" then
        "\u00" ++ String (hex_lower (b / 16)) (String (hex_lower (b mod 16)) (encode_body rest))
      else String c (encode_body rest)
  end.

Definition encode (s : string) : string :=
  String dquote (encode_body s ++ String dquote EmptyString).

(** *** The client and the SDK *)

(** A configuration either fails to give a client or gives one. *)
Definition conf : Type := string + unit.

(** The replies still to come: a transport error or a response body. *)
Definition replies : Type := list (string + string).

Definition perform (_ : unit) (_ : PerformRequestOptions) (w : replies)
  : (string + Response) * replies :=
  match w with
  | [] => (inl "no Elasticsearch node available", [])
  | inl err :: rest => (inl err, rest)
  | inr body :: rest => (inr {| ResponseBody := body |}, rest)
  end.

Definition normalize_json (s : string) : string + string :=
  if String.eqb s EmptyString then inr EmptyString
  else bind_text (parse s) (fun v => inr (Marshal encode v)).

Definition write_field (_ : string) (v : value) : string + string :=
  match v with
  | Null => inr EmptyString
  | Str s => inr s
  | v => inl ("'' expected type 'string', got unconvertible type '" ++ kind_of v ++ "'")
  end.

Definition env : Collaborators := {|
  ClientError := string;
  ProviderConf := conf;
  Client := unit;
  World := replies;
  getClient := fun m => m;
  PerformRequest := perform;
  Unmarshal_querySearchResult := fun s => bind_text (parse s) decode_querySearchResult;
  Unmarshal_map := fun s => bind_text (parse s) (fun v => as_map (Some v));
  Unmarshal_SaDetectorResponse := fun s => bind_text (parse s) decode_SaDetectorResponse;
  Unmarshal_SaDetectorRuleResponse :=
    fun s => bind_text (parse s) decode_SaDetectorRuleResponse;
  encodeString := encode;
  NormalizeJsonString := normalize_json;
  WriteField := write_field;
  normalizeSaDetector := fun detector => detector;
  IsSearchNotFound := IsSearchNotFound_spec
|}.

(** A resource as the host hands it in, and the state of a call. *)
Definition resource (id body category : string) : ResourceData :=
  {| Id := id; fields := <["category" := category]> (<["body" := body]> ∅) |}.

Definition start (d : ResourceData) (w : replies) : State env :=
  Build_State env d w [].

Definition ready : conf := inr tt.

(** *** Replies of the cluster and resources of the scenarios *)

Definition no_hits : string :=
  json_text "{'hits':{'total':{'value':0},'hits':[]}}".

Definition detector_hit : string :=
  json_text "{'hits':{'total':{'value':1},'hits':[{'_id':'abc123','_version':1,'_source':{'type':'sigma','name':'t1'}}]}}".

Definition wrapped_hit : string :=
  json_text "{'hits':{'total':{'value':1},'hits':[{'_id':'abc123','_version':1,'_source':{'detector':{'name':'t1'}}}]}}".

Definition rule_hit : string :=
  json_text "{'hits':{'total':{'value':1},'hits':[{'_id':'r1','_version':2,'_source':{'category':'cloudtrail','rule':'title: Test'}}]}}".

Definition total_without_hits : string :=
  json_text "{'hits':{'total':{'value':1},'hits':[]}}".

Definition detector_created : string :=
  json_text "{'_id':'abc123','_version':1,'detector':{'type':'sigma','name':'t1'}}".

Definition not_json : string := "<html>".

Definition detector_body : string := json_text "{'type':'sigma','name':'t1'}".

Definition new_detector : ResourceData := resource EmptyString detector_body EmptyString.

Definition known_detector : ResourceData := resource "abc123" detector_body EmptyString.

Definition new_rule (category : string) : ResourceData :=
  resource EmptyString "title: Test" category.

Definition known_rule : ResourceData := resource "r1" "title: Old" "cloudtrail".

Definition rule_created : string :=
  json_text "{'_id':'r1','_version':1,'rule':{'category':'cloudtrail','rule':'title: Test'}}".

(** The resources of a Terraform state: a detector, then two rules. *)
Definition state_resources : list (string * ResourceState) :=
  [("opensearch_sa_detector.d",
    {| rs_Type := "opensearch_sa_detector"; rs_Primary_ID := "abc123" |});
   ("opensearch_sa_custom_rule.test_rule",
    {| rs_Type := rule_type; rs_Primary_ID := "r1" |});
   ("opensearch_sa_custom_rule.other",
    {| rs_Type := rule_type; rs_Primary_ID := "r2" |})].

End TestDouble.

(** ** Vocabulary of the statements *)

(** The request of a lookup by ID at a search endpoint. *)
Definition lookup_request (env : Collaborators) (path id : string)
  : PerformRequestOptions :=
  {| Method := "POST"; Path := path;
     Body := JSON.Marshal (encodeString env) (searchQuery id);
     ContentType := "application/json" |}.

(** The state after [d.SetId v]. *)
Definition with_id {env : Collaborators} (v : string) (st : State env) : State env :=
  {| rd := {| Id := v; fields := fields (rd st) |};
     world := world st; requests := requests st |}.

(** The state after the client has answered a request. *)
Definition after_request {env : Collaborators} (options : PerformRequestOptions)
    (w : World env) (st : State env) : State env :=
  {| rd := rd st; world := w; requests := (requests st ++ [options])%list |}.

(** The cluster answers the lookup of [id] at [path] with a search result. *)
Definition search_answer (env : Collaborators) (path id : string)
    (m : ProviderConf env) (st : State env) (searchResult : querySearchResult)
    (st' : State env) : Prop :=
  exists osClient res w,
    getClient env m = inr osClient
    /\ PerformRequest env osClient (lookup_request env path id) (world st) = (inr res, w)
    /\ Unmarshal_querySearchResult env (ResponseBody res) = inr searchResult
    /\ st' = after_request (lookup_request env path id) w st.

(** The two resource kinds, and their operations as the two
    [schema.Resource] values register them. *)
Inductive kind : Type := detector | detector_rule.

Definition search_endpoint (k : kind) : string :=
  match k with
  | detector => detectors_search_path
  | detector_rule => rules_search_path
  end.

Definition Read (env : Collaborators) (k : kind)
  : ProviderConf env -> M env (option (error (ClientError env))) :=
  match k with
  | detector => resourceOpensearchSaDetectorRead env
  | detector_rule => resourceOpensearchSaDetectorRuleRead env
  end.

Definition Create (env : Collaborators) (k : kind)
  : ProviderConf env -> M env (option (error (ClientError env))) :=
  match k with
  | detector => resourceOpensearchSaDetectorCreate env
  | detector_rule => resourceOpensearchSaDetectorRuleCreate env
  end.

Definition Update (env : Collaborators) (k : kind)
  : ProviderConf env -> M env (option (error (ClientError env))) :=
  match k with
  | detector => resourceOpensearchSaDetectorUpdate env
  | detector_rule => resourceOpensearchSaDetectorRuleUpdate env
  end.

(** What a lookup gives back, for either kind: the ID, the version and the
    document ([Detector] or [Rule]). *)
Record found : Type := {
  found_ID : string;
  found_Version : Z;
  found_Document : JSON.object
}.

Definition lookup_by_id (env : Collaborators) (k : kind) (id : string)
    (m : ProviderConf env) : M env (result (error (ClientError env)) found) :=
  match k with
  | detector =>
      do r <- resourceOpensearchSaDetectorSearch env id m;
      ret match r with
          | Ok res => Ok {| found_ID := SaDetectorResponse.ID res;
                            found_Version := SaDetectorResponse.Version res;
                            found_Document := SaDetectorResponse.Detector res |}
          | Err err => Err err
          end
  | detector_rule =>
      do r <- resourceOpensearchSaDetectorRuleGet env id m;
      ret match r with
          | Ok res => Ok {| found_ID := SaDetectorRuleResponse.ID res;
                            found_Version := SaDetectorRuleResponse.Version res;
                            found_Document := SaDetectorRuleResponse.Rule res |}
          | Err err => Err err
          end
  end.

(** The POST of Create and the PUT of Update, for either kind; the POST
    gives the ID of the response. *)
Definition send_create (env : Collaborators) (k : kind) (m : ProviderConf env)
  : M env (result (error (ClientError env)) string) :=
  match k with
  | detector =>
      do r <- resourceOpensearchPostSaDetector env m;
      ret match r with Ok res => Ok (SaDetectorResponse.ID res) | Err err => Err err end
  | detector_rule =>
      do r <- resourceOpensearchPostSaDetectorRule env m;
      ret match r with Ok res => Ok (SaDetectorRuleResponse.ID res) | Err err => Err err end
  end.

Definition send_update (env : Collaborators) (k : kind) (m : ProviderConf env)
  : M env (result (error (ClientError env)) unit) :=
  match k with
  | detector =>
      do r <- resourceOpensearchPutSaDetector env m;
      ret match r with Ok _ => Ok tt | Err err => Err err end
  | detector_rule =>
      do r <- resourceOpensearchPutSaDetectorRule env m;
      ret match r with Ok _ => Ok tt | Err err => Err err end
  end.

(** The words a lookup puts before a decoder's error on the source of a
    hit, and what it keeps of the decoded source. *)
Definition source_error_prefix (k : kind) : string :=
  match k with
  | detector => "error unmarshalling detector source: "
  | detector_rule => "error unmarshalling rule source: "
  end.

Definition kept_document (env : Collaborators) (k : kind) (source : JSON.object)
  : JSON.object :=
  match k with
  | detector => normalizeSaDetector env source
  | detector_rule => source
  end.

Definition index_panic : string :=
  "runtime error: index out of range [0] with length 0".

(** The attributes of a resource as [d.Get] reads them. *)
Definition attribute (d : ResourceData) (key : string) : string :=
  default EmptyString (fields d !! key).

(** The request of Create, of Update and of a rule's Delete for the
    resource data [d]. *)
Definition create_request (k : kind) (d : ResourceData) : PerformRequestOptions :=
  match k with
  | detector =>
      {| Method := "POST"; Path := detectors_path;
         Body := attribute d "body"; ContentType := EmptyString |}
  | detector_rule =>
      {| Method := "POST";
         Path := "/_plugins/_security_analytics/rules?category="
                 ++ uritemplates.escape (attribute d "category");
         Body := attribute d "body"; ContentType := "application/json" |}
  end.

Definition update_request (k : kind) (d : ResourceData) : PerformRequestOptions :=
  match k with
  | detector =>
      {| Method := "PUT";
         Path := "/_plugins/_security_analytics/detectors/" ++ uritemplates.escape (Id d);
         Body := attribute d "body"; ContentType := EmptyString |}
  | detector_rule =>
      {| Method := "PUT";
         Path := "/_plugins/_security_analytics/rules/" ++ uritemplates.escape (Id d)
                 ++ "?category=" ++ uritemplates.escape (attribute d "category")
                 ++ "&forced=true";
         Body := attribute d "body"; ContentType := "application/json" |}
  end.

Definition rule_delete_request (d : ResourceData) : PerformRequestOptions :=
  {| Method := "DELETE";
     Path := "/_plugins/_security_analytics/rules/" ++ uritemplates.escape (Id d)
             ++ "?forced=true";
     Body := EmptyString; ContentType := EmptyString |}.

(** The words Create and Update put before a decoder's error on the
    response, and the ID they read from a decoded response. *)
Definition body_error_prefix (k : kind) : string :=
  match k with
  | detector => "error unmarshalling detector body: "
  | detector_rule => "error unmarshalling detector rule body: "
  end.

Definition response_id (env : Collaborators) (k : kind) (body : string)
  : string + string :=
  match k with
  | detector =>
      match Unmarshal_SaDetectorResponse env body with
      | inl text => inl text
      | inr response => inr (SaDetectorResponse.ID response)
      end
  | detector_rule =>
      match Unmarshal_SaDetectorRuleResponse env body with
      | inl text => inl text
      | inr response => inr (SaDetectorRuleResponse.ID response)
      end
  end.

(** What follows the request of Create or Update: the client's error as
    it is, the decoder's error with the body, or the ID of the response. *)
Definition after_send (env : Collaborators) (k : kind)
    (r : ClientError env + Response) : result (error (ClientError env)) string :=
  match r with
  | inl e => Err (clientError e)
  | inr res =>
      match response_id env k (ResponseBody res) with
      | inl text =>
          Err (errorString (body_error_prefix k ++ text ++ ": "
                              ++ fmt.bytes (ResponseBody res)))
      | inr id => Ok id
      end
  end.

(** The text of the query of a lookup, given the string encoder: the keys
    of each object in sorted order. *)
Definition query_text (enc : string -> string) (id : string) : string :=
  "{" ++
  ((enc "query" ++ ":" ++
    "{" ++
    (enc "ids" ++ ":" ++
     "{" ++ (enc "values" ++ ":" ++ "[" ++ enc id ++ "]") ++ "}") ++
    "}") ++
   "," ++ enc "size" ++ ":" ++ "1") ++
  "}".

(** The error of a lookup that finds no hit. *)
Definition no_results {ClientError : Type} (id : string) : error ClientError :=
  errorString ("no search results found for ID: " ++ id).

(** Delete of either kind, and its request. *)
Definition Delete (env : Collaborators) (k : kind)
  : ProviderConf env -> M env (option (error (ClientError env))) :=
  match k with
  | detector => resourceOpensearchSaDetectorDelete env
  | detector_rule => resourceOpensearchSaDetectorRuleDelete env
  end.

Definition delete_request (k : kind) (d : ResourceData) : PerformRequestOptions :=
  match k with
  | detector =>
      {| Method := "DELETE";
         Path := "/_plugins/_security_analytics/detectors/" ++ uritemplates.escape (Id d);
         Body := EmptyString; ContentType := EmptyString |}
  | detector_rule => rule_delete_request d
  end.

(** The request of a detector's Get. *)
Definition get_request (id : string) : PerformRequestOptions :=
  {| Method := "GET";
     Path := "/_plugins/_security_analytics/detectors/" ++ uritemplates.escape id;
     Body := EmptyString; ContentType := EmptyString |}.


(** The resources before the first rule in the order of the loop, and the
    first rule itself. *)
Fixpoint first_rule (resources : list (string * ResourceState)) : option ResourceState :=
  match resources with
  | [] => None
  | (_, rs) :: rest =>
      if String.eqb (rs_Type rs) rule_type then Some rs else first_rule rest
  end.

(** ** Properties *)

Section Properties.

Variable env : Collaborators.

#[local] Abbreviation error := (error (ClientError env)).

Ltac unfold_calls :=
  unfold resourceOpensearchSaDetectorRead, resourceOpensearchSaDetectorRuleRead,
    resourceOpensearchSaDetectorCreate, resourceOpensearchSaDetectorRuleCreate,
    resourceOpensearchSaDetectorUpdate, resourceOpensearchSaDetectorRuleUpdate,
    resourceOpensearchSaDetectorDelete, resourceOpensearchSaDetectorRuleDelete,
    resourceOpensearchSaDetectorSearch, resourceOpensearchSaDetectorRuleGet,
    resourceOpensearchPostSaDetector, resourceOpensearchPostSaDetectorRule,
    resourceOpensearchPutSaDetector, resourceOpensearchPutSaDetectorRule in *.

Ltac unfold_effects :=
  unfold Read, Create, Update, lookup_by_id, send_create, send_update, search_endpoint,
    bind, ret, d_Id, d_SetId, d_Get, d_Set, performRequest, first_hit,
    with_id, after_request, lookup_request, create_request, update_request,
    rule_delete_request, response_id, after_send, attribute in *.

(** Case analysis on whatever the code branches on. *)
Ltac branch :=
  match goal with
  | |- context [match ?x with _ => _ end] =>
      lazymatch x with
      | context [match _ with _ => _ end] => fail
      | _ => destruct x eqn:?
      end
  | |- context [if ?x then _ else _] => destruct x eqn:?
  end.

Ltac run_code :=
  unfold_effects; unfold_calls; unfold_effects; repeat (cbn; try branch); cbn.

(** *** The lookups leave the resource data alone *)

Lemma detector_search_frame (id : string) (m : ProviderConf env) (st : State env) :
  rd (snd (resourceOpensearchSaDetectorSearch env id m st)) = rd st.
Proof. run_code; reflexivity. Qed.

Lemma rule_get_frame (id : string) (m : ProviderConf env) (st : State env) :
  rd (snd (resourceOpensearchSaDetectorRuleGet env id m st)) = rd st.
Proof. run_code; reflexivity. Qed.

Lemma lookup_frame (k : kind) (id : string) (m : ProviderConf env) (st : State env) :
  rd (snd (lookup_by_id env k id m st)) = rd st.
Proof. destruct k; run_code; reflexivity. Qed.

(** *** Read *)

(** C1. For both kinds: when the lookup of Read fails with an error that
    satisfies the NotFound predicate, Read sets the ID to the empty string
    and returns nil; when it fails with any other error, Read returns that
    very error and the resource data (the ID with it) is as before. *)
Theorem read_lookup_failure (k : kind) (m : ProviderConf env)
    (st st' : State env) (err : error) :
  lookup_by_id env k (Id (rd st)) m st = (Done (Err err), st') ->
  (IsSearchNotFound env err = true ->
     Read env k m st = (Done None, with_id EmptyString st')
     /\ rd (with_id EmptyString st')
        = {| Id := EmptyString; fields := fields (rd st) |})
  /\ (IsSearchNotFound env err = false ->
       Read env k m st = (Done (Some err), st') /\ rd st' = rd st).
Proof.
  intros Hlookup.
  pose proof (lookup_frame k (Id (rd st)) m st) as Hframe.
  rewrite Hlookup in Hframe; cbn in Hframe.
  split; intros Hnf.
  - split; [| unfold with_id; cbn; now rewrite Hframe].
    destruct k; unfold Read, lookup_by_id in *;
      unfold resourceOpensearchSaDetectorRead, resourceOpensearchSaDetectorRuleRead;
      unfold bind, d_Id, ret in *; cbn in *.
    + destruct (resourceOpensearchSaDetectorSearch env (Id (rd st)) m st)
        as [[[res|e]|msg] st1]; inversion Hlookup; subst.
      now rewrite Hnf.
    + destruct (resourceOpensearchSaDetectorRuleGet env (Id (rd st)) m st)
        as [[[res|e]|msg] st1]; inversion Hlookup; subst.
      now rewrite Hnf.
  - split; [| exact Hframe].
    destruct k; unfold Read, lookup_by_id in *;
      unfold resourceOpensearchSaDetectorRead, resourceOpensearchSaDetectorRuleRead;
      unfold bind, d_Id, ret in *; cbn in *.
    + destruct (resourceOpensearchSaDetectorSearch env (Id (rd st)) m st)
        as [[[res|e]|msg] st1]; inversion Hlookup; subst.
      now rewrite Hnf.
    + destruct (resourceOpensearchSaDetectorRuleGet env (Id (rd st)) m st)
        as [[[res|e]|msg] st1]; inversion Hlookup; subst.
      now rewrite Hnf.
Qed.

(** *** The lookups, step by step *)

Lemma lookup_steps (k : kind) (id : string) (m : ProviderConf env) (st : State env) :
  lookup_by_id env k id m st =
  match getClient env m with
  | inl e => (Done (Err (clientError e)), st)
  | inr osClient =>
      let options := lookup_request env (search_endpoint k) id in
      let (r, w) := PerformRequest env osClient options (world st) in
      let st' := after_request options w st in
      match r with
      | inl e => (Done (Err (clientError e)), st')
      | inr res =>
          match Unmarshal_querySearchResult env (ResponseBody res) with
          | inl text =>
              (Done (Err (errorString
                            ("error unmarshalling search result: " ++ text))), st')
          | inr searchResult =>
              if (Hits_Total_Value searchResult =? 0)%Z then
                (Done (Err (errorString
                              ("no search results found for ID: " ++ id))), st')
              else
                match Hits_Hits searchResult with
                | [] => (Panic index_panic, st')
                | hit :: _ =>
                    match Unmarshal_map env (hit_Source hit) with
                    | inl text =>
                        (Done (Err (errorString (source_error_prefix k ++ text))), st')
                    | inr source =>
                        (Done (Ok {| found_ID := hit_ID hit;
                                     found_Version := hit_Version hit;
                                     found_Document := kept_document env k source |}),
                         st')
                    end
                end
          end
      end
  end.
Proof. destruct k; run_code; reflexivity. Qed.

(** *** The requests of Create, Update and Delete, step by step *)

Lemma append_nil_r (s : string) : s ++ EmptyString = s.
Proof.
  induction s as [| c s IH]; [reflexivity |].
  change (String c (s ++ EmptyString) = String c s). now rewrite IH.
Qed.

Lemma expand_detector (id : string) :
  uritemplates.Expand detector_template [("id", id)]
  = inr ("/_plugins/_security_analytics/detectors/" ++ uritemplates.escape id).
Proof.
  rewrite <- (append_nil_r (uritemplates.escape id)). reflexivity.
Qed.

Lemma expand_rule_create (category : string) :
  uritemplates.Expand rule_create_template [("category", category)]
  = inr ("/_plugins/_security_analytics/rules?category="
         ++ uritemplates.escape category).
Proof.
  rewrite <- (append_nil_r (uritemplates.escape category)). reflexivity.
Qed.

Lemma expand_rule_update (id category : string) :
  uritemplates.Expand rule_update_template [("id", id); ("category", category)]
  = inr ("/_plugins/_security_analytics/rules/" ++ uritemplates.escape id
         ++ "?category=" ++ uritemplates.escape category ++ "&forced=true").
Proof. reflexivity. Qed.

Lemma expand_rule_delete (id : string) :
  uritemplates.Expand rule_delete_template [("id", id)]
  = inr ("/_plugins/_security_analytics/rules/" ++ uritemplates.escape id
         ++ "?forced=true").
Proof. reflexivity. Qed.

Lemma send_create_steps (k : kind) (m : ProviderConf env) (st : State env) :
  send_create env k m st =
  match getClient env m with
  | inl e => (Done (Err (clientError e)), st)
  | inr osClient =>
      let options := create_request k (rd st) in
      let (r, w) := PerformRequest env osClient options (world st) in
      (Done (after_send env k r), after_request options w st)
  end.
Proof.
  destruct k; unfold send_create.
  - run_code; reflexivity.
  - unfold resourceOpensearchPostSaDetectorRule, bind, d_Get; cbn.
    rewrite expand_rule_create. run_code; reflexivity.
Qed.

Lemma send_update_steps (k : kind) (m : ProviderConf env) (st : State env) :
  send_update env k m st =
  match getClient env m with
  | inl e => (Done (Err (clientError e)), st)
  | inr osClient =>
      let options := update_request k (rd st) in
      let (r, w) := PerformRequest env osClient options (world st) in
      (Done match after_send env k r with Ok _ => Ok tt | Err err => Err err end,
       after_request options w st)
  end.
Proof.
  destruct k; unfold send_update.
  - unfold resourceOpensearchPutSaDetector, bind, d_Get, d_Id; cbn.
    rewrite expand_detector. run_code; reflexivity.
  - unfold resourceOpensearchPutSaDetectorRule, bind, d_Get, d_Id; cbn.
    rewrite expand_rule_update. run_code; reflexivity.
Qed.

Lemma rule_delete_steps (m : ProviderConf env) (st : State env) :
  resourceOpensearchSaDetectorRuleDelete env m st =
  match getClient env m with
  | inl e => (Done (Some (clientError e)), st)
  | inr osClient =>
      let options := rule_delete_request (rd st) in
      let (r, w) := PerformRequest env osClient options (world st) in
      (Done match r with inl e => Some (clientError e) | inr _ => None end,
       after_request options w st)
  end.
Proof.
  unfold resourceOpensearchSaDetectorRuleDelete, bind, d_Id; cbn.
  rewrite expand_rule_delete. run_code; reflexivity.
Qed.

Lemma create_steps (k : kind) (m : ProviderConf env) (st : State env) :
  Create env k m st =
  match send_create env k m st with
  | (Done (Err err), st1) => (Done (Some err), st1)
  | (Done (Ok id), st1) => Read env k m (with_id id st1)
  | (Panic msg, st1) => (Panic msg, st1)
  end.
Proof.
  destruct k; unfold Create, send_create, Read;
    unfold resourceOpensearchSaDetectorCreate, resourceOpensearchSaDetectorRuleCreate;
    unfold bind, ret, d_SetId, with_id; cbv beta.
  - destruct (resourceOpensearchPostSaDetector env m st) as [[[res|e]|msg] st1];
      reflexivity.
  - destruct (resourceOpensearchPostSaDetectorRule env m st) as [[[res|e]|msg] st1];
      reflexivity.
Qed.

Lemma update_steps (k : kind) (m : ProviderConf env) (st : State env) :
  Update env k m st =
  match send_update env k m st with
  | (Done (Err err), st1) => (Done (Some err), st1)
  | (Done (Ok _), st1) => Read env k m st1
  | (Panic msg, st1) => (Panic msg, st1)
  end.
Proof.
  destruct k; unfold Update, send_update, Read;
    unfold resourceOpensearchSaDetectorUpdate, resourceOpensearchSaDetectorRuleUpdate;
    unfold bind, ret; cbv beta.
  - destruct (resourceOpensearchPutSaDetector env m st) as [[[res|e]|msg] st1];
      reflexivity.
  - destruct (resourceOpensearchPutSaDetectorRule env m st) as [[[res|e]|msg] st1];
      reflexivity.
Qed.

(** Read as the lookup followed by what Read does with its result. *)
Lemma read_steps (k : kind) (m : ProviderConf env) (st : State env) :
  Read env k m st =
  match lookup_by_id env k (Id (rd st)) m st with
  | (Done (Err err), st1) =>
      if IsSearchNotFound env err then (Done None, with_id EmptyString st1)
      else (Done (Some err), st1)
  | (Done (Ok f), st1) =>
      match k with
      | detector =>
          match NormalizeJsonString env
                  (JSON.MarshalObject (encodeString env) (found_Document f)) with
          | inl text => (Done (Some (jsonError text)), with_id (found_ID f) st1)
          | inr normalized =>
              d_Set env "body" (JSON.Str normalized) (with_id (found_ID f) st1)
          end
      | detector_rule =>
          d_Set env "body" (JSON.index (found_Document f) "rule")
            (with_id (found_ID f) st1)
      end
  | (Panic msg, st1) => (Panic msg, st1)
  end.
Proof.
  destruct k; unfold Read, lookup_by_id;
    unfold resourceOpensearchSaDetectorRead, resourceOpensearchSaDetectorRuleRead;
    unfold bind, ret, d_Id, d_SetId, with_id; cbv beta.
  - destruct (resourceOpensearchSaDetectorSearch env (Id (rd st)) m st)
      as [[[res|e]|msg] st1]; cbn; try reflexivity.
    + destruct (NormalizeJsonString env _); reflexivity.
    + destruct (IsSearchNotFound env e); reflexivity.
  - destruct (resourceOpensearchSaDetectorRuleGet env (Id (rd st)) m st)
      as [[[res|e]|msg] st1]; cbn; try reflexivity.
    destruct (IsSearchNotFound env e); reflexivity.
Qed.

(** C10. Read of a rule never writes the [category] attribute: whatever
    the outcome (found, not found, an error, a panic), the stored category
    is the one from before the call. *)
Theorem rule_read_keeps_category (m : ProviderConf env) (st : State env) :
  fields (rd (snd (resourceOpensearchSaDetectorRuleRead env m st))) !! "category"
  = fields (rd st) !! "category".
Proof.
  change (resourceOpensearchSaDetectorRuleRead env m st)
    with (Read env detector_rule m st).
  rewrite read_steps.
  pose proof (lookup_frame detector_rule (Id (rd st)) m st) as Hframe.
  destruct (lookup_by_id env detector_rule (Id (rd st)) m st) as [[[f|err]|msg] st1];
    cbn in Hframe.
  - unfold d_Set, with_id.
    destruct (WriteField env "body" _); cbn; rewrite Hframe; [reflexivity |].
    now rewrite lookup_insert_ne.
  - destruct (IsSearchNotFound env err); cbn; now rewrite Hframe.
  - cbn. now rewrite Hframe.
Qed.

(** C8. When the lookup of a rule's Read returns a response and Read
    succeeds, the [body] attribute holds what the field writer stores for
    the one field [rule] of the returned document ([res.Rule["rule"]]); the
    ID is the one of the response and no other attribute is written. *)
Theorem rule_read_sets_body (m : ProviderConf env) (st st1 st2 : State env)
    (res : SaDetectorRuleResponse.t) :
  resourceOpensearchSaDetectorRuleGet env (Id (rd st)) m st = (Done (Ok res), st1) ->
  resourceOpensearchSaDetectorRuleRead env m st = (Done None, st2) ->
  exists text,
    WriteField env "body" (JSON.index (SaDetectorRuleResponse.Rule res) "rule")
    = inr text
    /\ fields (rd st2) = <["body" := text]> (fields (rd st))
    /\ Id (rd st2) = SaDetectorRuleResponse.ID res.
Proof.
  intros Hget Hread.
  pose proof (rule_get_frame (Id (rd st)) m st) as Hframe.
  rewrite Hget in Hframe; cbn in Hframe.
  unfold resourceOpensearchSaDetectorRuleRead, bind, d_Id, d_SetId, d_Set in Hread;
    cbv beta in Hread.
  rewrite Hget in Hread; cbn in Hread.
  destruct (WriteField env "body" _) as [msg|text]; inversion Hread; subst; cbn.
  exists text. rewrite Hframe. repeat split; reflexivity.
Qed.

(** C9. In both lookups the first element of the hits is read whenever
    the search result was decoded and its total is not zero, and only
    then: the lookup panics with an index out of range exactly when the
    total is not zero and the list of hits is empty; in every other case,
    a non-empty list of hits included, it returns. *)
Theorem first_hit_guard (k : kind) (id : string) (m : ProviderConf env)
    (st st' : State env) (searchResult : querySearchResult) :
  search_answer env (search_endpoint k) id m st searchResult st' ->
  (lookup_by_id env k id m st = (Panic index_panic, st')
   <-> Hits_Total_Value searchResult <> 0%Z /\ Hits_Hits searchResult = [])
  /\ (Hits_Total_Value searchResult = 0%Z \/ Hits_Hits searchResult <> [] ->
      exists r, lookup_by_id env k id m st = (Done r, st')).
Proof.
  intros (osClient & res & w & Hclient & Hperform & Hdecode & ->).
  rewrite lookup_steps, Hclient; cbv zeta; rewrite Hperform, Hdecode.
  destruct (Z.eqb_spec (Hits_Total_Value searchResult) 0) as [Hzero|Hnonzero].
  - split.
    + split; [discriminate | intros [Hne _]; contradiction].
    + intros _. eexists; reflexivity.
  - destruct (Hits_Hits searchResult) as [|hit rest].
    + split.
      * split; [intros _; split; [exact Hnonzero | reflexivity] | reflexivity].
      * intros [Hz|Hne]; [contradiction | now contradiction Hne].
    + split.
      * split; [ destruct (Unmarshal_map env (hit_Source hit)); discriminate
               | intros [_ Hnil]; discriminate ].
      * intros _. destruct (Unmarshal_map env (hit_Source hit)); eexists; reflexivity.
Qed.

(** C5, as the code has it. On a hit, either lookup takes the ID and the
    version of the first hit and unmarshals the whole source of that hit
    (the [_source] member, one level down) into a generic object: the rule
    lookup returns that object, the detector lookup passes it through
    [normalizeSaDetector].  No [detector] member of the source is
    selected. *)
Theorem lookup_hit (k : kind) (id : string) (m : ProviderConf env)
    (st st' : State env) (searchResult : querySearchResult)
    (hit : searchHit) (rest : list searchHit) (source : JSON.object) :
  search_answer env (search_endpoint k) id m st searchResult st' ->
  Hits_Total_Value searchResult <> 0%Z ->
  Hits_Hits searchResult = hit :: rest ->
  Unmarshal_map env (hit_Source hit) = inr source ->
  lookup_by_id env k id m st
  = (Done (Ok {| found_ID := hit_ID hit;
                 found_Version := hit_Version hit;
                 found_Document :=
                   match k with
                   | detector => normalizeSaDetector env source
                   | detector_rule => source
                   end |}), st').
Proof.
  intros (osClient & res & w & Hclient & Hperform & Hdecode & ->) Hnonzero Hhits Hsrc.
  rewrite lookup_steps, Hclient; cbv zeta; rewrite Hperform, Hdecode.
  destruct (Z.eqb_spec (Hits_Total_Value searchResult) 0) as [Hzero|_];
    [contradiction |].
  rewrite Hhits, Hsrc. destruct k; reflexivity.
Qed.

Lemma lookup_requests (k : kind) (id : string) (m : ProviderConf env)
    (st : State env) :
  requests (snd (lookup_by_id env k id m st))
  = (requests st ++ match getClient env m with
                    | inl _ => []
                    | inr _ => [lookup_request env (search_endpoint k) id]
                    end)%list.
Proof.
  rewrite lookup_steps.
  destruct (getClient env m) as [e|osClient]; cbn; [now rewrite app_nil_r |].
  destruct (PerformRequest env osClient _ (world st)) as [[e|res] w]; [reflexivity |].
  destruct (Unmarshal_querySearchResult env (ResponseBody res)); [reflexivity |].
  destruct (_ =? _)%Z; [reflexivity |].
  destruct (Hits_Hits _); [reflexivity |].
  destruct (Unmarshal_map env _); reflexivity.
Qed.

Lemma read_requests (k : kind) (m : ProviderConf env) (st : State env) :
  exists more,
    requests (snd (Read env k m st)) = (requests st ++ more)%list.
Proof.
  pose proof (lookup_requests k (Id (rd st)) m st) as Hreq.
  rewrite read_steps.
  destruct (lookup_by_id env k (Id (rd st)) m st) as [[[f|err]|msg] st1]; cbn in Hreq.
  - destruct k; unfold d_Set, with_id.
    + destruct (NormalizeJsonString env _); [eexists; exact Hreq |].
      destruct (WriteField env _ _); eexists; exact Hreq.
    + destruct (WriteField env _ _); eexists; exact Hreq.
  - destruct (IsSearchNotFound env err); eexists; exact Hreq.
  - eexists; exact Hreq.
Qed.

Lemma escape_unreserved (s : string) :
  uritemplates.all_chars uritemplates.unreserved s = true ->
  uritemplates.escape s = s.
Proof.
  induction s as [| c s IH]; [reflexivity |].
  cbn [uritemplates.all_chars uritemplates.escape].
  intros [Hc Hs]%andb_prop. rewrite Hc, (IH Hs). reflexivity.
Qed.

(** C2. For both lookups, with the NotFound predicate as the
    specification describes it: a search result whose total is zero makes
    the lookup fail with an error that satisfies the predicate; a lookup
    error that satisfies the predicate comes from such a search result and
    from nothing else; the errors of the client, passed on as they are, and
    the errors built around a decoder's error never satisfy it. *)
Theorem not_found_distinguished (k : kind) (id : string) (m : ProviderConf env)
    (st : State env) :
  (forall searchResult st',
      search_answer env (search_endpoint k) id m st searchResult st' ->
      Hits_Total_Value searchResult = 0%Z ->
      lookup_by_id env k id m st = (Done (Err (no_results id)), st')
      /\ IsSearchNotFound_spec (no_results id : error) = true)
  /\ (forall err st',
        lookup_by_id env k id m st = (Done (Err err), st') ->
        IsSearchNotFound_spec err = true ->
        exists searchResult,
          search_answer env (search_endpoint k) id m st searchResult st'
          /\ Hits_Total_Value searchResult = 0%Z)
  /\ (forall e : ClientError env,
        IsSearchNotFound_spec (clientError e : error) = false)
  /\ (forall text : string,
        IsSearchNotFound_spec
          (errorString ("error unmarshalling search result: " ++ text) : error)
        = false
        /\ IsSearchNotFound_spec
             (errorString (source_error_prefix k ++ text) : error) = false).
Proof.
  repeat split.
  - destruct H as (osClient & res & w & Hclient & Hperform & Hdecode & ->).
    rewrite lookup_steps, Hclient; cbv zeta; rewrite Hperform, Hdecode, H0.
    reflexivity.
  - intros err st' Hlookup Hnf.
    rewrite lookup_steps in Hlookup.
    destruct (getClient env m) as [e|osClient] eqn:Hclient.
    { inversion Hlookup; subst; discriminate. }
    cbv zeta in Hlookup.
    destruct (PerformRequest env osClient _ (world st)) as [[e|res] w] eqn:Hperform.
    { inversion Hlookup; subst; discriminate. }
    destruct (Unmarshal_querySearchResult env (ResponseBody res))
      as [text|searchResult] eqn:Hdecode.
    { inversion Hlookup; subst; discriminate. }
    destruct (Z.eqb_spec (Hits_Total_Value searchResult) 0) as [Hzero|Hnonzero].
    + inversion Hlookup; subst.
      exists searchResult; split; [| exact Hzero].
      exists osClient, res, w. repeat split; assumption.
    + destruct (Hits_Hits searchResult) as [|hit rest]; [discriminate |].
      destruct (Unmarshal_map env (hit_Source hit)); inversion Hlookup; subst.
      destruct k; discriminate.
  - destruct k; reflexivity.
Qed.

(** C3. For every ID, a lookup that has a client issues one request and
    no other: a POST to the search endpoint of its kind, with the content
    type of JSON, whose body is what [json.Marshal] writes for the query
    with [size] 1 and the one ID under [query.ids.values].  The bytes have
    the keys of each object in sorted order, whichever order the map
    literal names them in. *)
Theorem lookup_issues_query (k : kind) (id : string) (m : ProviderConf env)
    (st : State env) :
  let options := lookup_request env (search_endpoint k) id in
  requests (snd (lookup_by_id env k id m st))
  = (requests st ++ match getClient env m with
                    | inl _ => []
                    | inr _ => [options]
                    end)%list
  /\ Method options = "POST"
  /\ Path options
     = match k with
       | detector => "/_plugins/_security_analytics/detectors/_search"
       | detector_rule =>
           "/_plugins/_security_analytics/rules/_search?pre_packaged=false"
       end
  /\ ContentType options = "application/json"
  /\ Body options
     = JSON.Marshal (encodeString env)
         (JSON.Object
            [("size", JSON.Number "1");
             ("query", JSON.Object
                [("ids", JSON.Object [("values", JSON.Array [JSON.Str id])])])])
  /\ Body options
     = JSON.Marshal (encodeString env)
         (JSON.Object
            [("query", JSON.Object
                [("ids", JSON.Object [("values", JSON.Array [JSON.Str id])])]);
             ("size", JSON.Number "1")])
  /\ Body options = query_text (encodeString env) id.
Proof.
  cbv zeta. split; [apply lookup_requests | destruct k; repeat split; reflexivity].
Qed.

(** C7, as the code has it. When the response to the POST of Create or
    to the PUT of Update cannot be decoded, the caller gets an error whose
    text is the words of the kind, the decoder's error and the response
    body printed as its bytes.  When the response to the request of a
    lookup, or the source of its first hit, cannot be decoded, the caller
    gets an error whose text is fixed words and the decoder's error: the
    body is not part of it. *)
Theorem decode_errors (k : kind) (m : ProviderConf env) (st : State env)
    (osClient : Client env) (res : Response) (w : World env) (text : string) :
  getClient env m = inr osClient ->
  (PerformRequest env osClient (create_request k (rd st)) (world st) = (inr res, w) ->
   response_id env k (ResponseBody res) = inl text ->
   send_create env k m st
   = (Done (Err (errorString (body_error_prefix k ++ text ++ ": "
                                ++ fmt.bytes (ResponseBody res)))),
      after_request (create_request k (rd st)) w st))
  /\ (PerformRequest env osClient (update_request k (rd st)) (world st) = (inr res, w) ->
      response_id env k (ResponseBody res) = inl text ->
      send_update env k m st
      = (Done (Err (errorString (body_error_prefix k ++ text ++ ": "
                                   ++ fmt.bytes (ResponseBody res)))),
         after_request (update_request k (rd st)) w st))
  /\ (forall id,
        PerformRequest env osClient (lookup_request env (search_endpoint k) id)
          (world st) = (inr res, w) ->
        Unmarshal_querySearchResult env (ResponseBody res) = inl text ->
        lookup_by_id env k id m st
        = (Done (Err (errorString ("error unmarshalling search result: " ++ text))),
           after_request (lookup_request env (search_endpoint k) id) w st))
  /\ (forall id searchResult hit rest,
        PerformRequest env osClient (lookup_request env (search_endpoint k) id)
          (world st) = (inr res, w) ->
        Unmarshal_querySearchResult env (ResponseBody res) = inr searchResult ->
        Hits_Total_Value searchResult <> 0%Z ->
        Hits_Hits searchResult = hit :: rest ->
        Unmarshal_map env (hit_Source hit) = inl text ->
        lookup_by_id env k id m st
        = (Done (Err (errorString (source_error_prefix k ++ text))),
           after_request (lookup_request env (search_endpoint k) id) w st)).
Proof.
  intros Hclient. repeat split.
  - intros Hperform Hdecode.
    rewrite send_create_steps, Hclient; cbv zeta; rewrite Hperform.
    unfold after_send. now rewrite Hdecode.
  - intros Hperform Hdecode.
    rewrite send_update_steps, Hclient; cbv zeta; rewrite Hperform.
    unfold after_send. now rewrite Hdecode.
  - intros id Hperform Hdecode.
    rewrite lookup_steps, Hclient; cbv zeta. now rewrite Hperform, Hdecode.
  - intros id searchResult hit rest Hperform Hdecode Hnonzero Hhits Hsrc.
    rewrite lookup_steps, Hclient; cbv zeta; rewrite Hperform, Hdecode.
    destruct (Z.eqb_spec (Hits_Total_Value searchResult) 0); [contradiction |].
    now rewrite Hhits, Hsrc.
Qed.

(** *** Create and Update *)

Lemma send_create_frame (k : kind) (m : ProviderConf env) (st : State env) :
  rd (snd (send_create env k m st)) = rd st.
Proof.
  rewrite send_create_steps. destruct (getClient env m); [reflexivity |].
  cbv zeta. now destruct (PerformRequest env _ _ _).
Qed.

Lemma send_update_frame (k : kind) (m : ProviderConf env) (st : State env) :
  rd (snd (send_update env k m st)) = rd st.
Proof.
  rewrite send_update_steps. destruct (getClient env m); [reflexivity |].
  cbv zeta. now destruct (PerformRequest env _ _ _).
Qed.

(** C6, as the code has it. For both kinds: when the POST of Create
    fails, Create returns the error and the resource data is as before, so
    the ID is not set; when the PUT of Update fails, or the lookup after a
    successful PUT fails with an error that is not NotFound, Update
    returns the error and the resource data is as before; when the lookup
    after a successful POST fails with an error that is not NotFound,
    Create returns the error and the ID is already the one of the POST
    response, the attributes being as before. *)
Theorem create_update_failures (k : kind) (m : ProviderConf env) (st : State env) :
  (forall err st1,
      send_create env k m st = (Done (Err err), st1) ->
      Create env k m st = (Done (Some err), st1) /\ rd st1 = rd st)
  /\ (forall err st1,
        send_update env k m st = (Done (Err err), st1) ->
        Update env k m st = (Done (Some err), st1) /\ rd st1 = rd st)
  /\ (forall st1 err st2,
        send_update env k m st = (Done (Ok tt), st1) ->
        lookup_by_id env k (Id (rd st)) m st1 = (Done (Err err), st2) ->
        IsSearchNotFound env err = false ->
        Update env k m st = (Done (Some err), st2) /\ rd st2 = rd st)
  /\ (forall id st1 err st2,
        send_create env k m st = (Done (Ok id), st1) ->
        lookup_by_id env k id m (with_id id st1) = (Done (Err err), st2) ->
        IsSearchNotFound env err = false ->
        Create env k m st = (Done (Some err), st2)
        /\ rd st2 = {| Id := id; fields := fields (rd st) |}).
Proof.
  repeat apply conj.
  - intros err st1 Hsend.
    pose proof (send_create_frame k m st) as Hframe.
    rewrite create_steps, Hsend. rewrite Hsend in Hframe. now split.
  - intros err st1 Hsend.
    pose proof (send_update_frame k m st) as Hframe.
    rewrite update_steps, Hsend. rewrite Hsend in Hframe. now split.
  - intros st1 err st2 Hsend Hlookup Hnf.
    pose proof (send_update_frame k m st) as Hframe.
    rewrite Hsend in Hframe; cbn in Hframe.
    pose proof (lookup_frame k (Id (rd st)) m st1) as Hframe2.
    rewrite Hlookup in Hframe2; cbn in Hframe2.
    rewrite update_steps, Hsend, read_steps, Hframe, Hlookup, Hnf.
    split; [reflexivity | congruence].
  - intros id st1 err st2 Hsend Hlookup Hnf.
    pose proof (send_create_frame k m st) as Hframe.
    rewrite Hsend in Hframe; cbn in Hframe.
    pose proof (lookup_frame k id m (with_id id st1)) as Hframe2.
    rewrite Hlookup in Hframe2; cbn in Hframe2.
    rewrite create_steps, Hsend, read_steps.
    change (Id (rd (with_id id st1))) with id.
    rewrite Hlookup, Hnf. split; [reflexivity |].
    rewrite Hframe2, Hframe. reflexivity.
Qed.

(** C4, as the code has it. With a client at hand, Create of a rule
    first issues a POST whose path is the rules endpoint with the category
    as its query, Update first issues a PUT whose path names the ID and
    the category and ends in [forced=true], and Delete issues one DELETE
    whose path names the ID and ends in [forced=true].  The ID and the
    category are written percent-encoded: a value made of unreserved
    characters only (letters, digits, [-], [.], [_], [~]) is written as it
    is, so the category [cloudtrail] gives exactly
    [/_plugins/_security_analytics/rules?category=cloudtrail]. *)
Theorem rule_requests (m : ProviderConf env) (st : State env)
    (osClient : Client env) :
  getClient env m = inr osClient ->
  let id := Id (rd st) in
  let category := attribute (rd st) "category" in
  (exists post more,
      requests (snd (Create env detector_rule m st))
      = (requests st ++ post :: more)%list
      /\ Method post = "POST"
      /\ Path post = "/_plugins/_security_analytics/rules?category="
                     ++ uritemplates.escape category)
  /\ (exists put more,
        requests (snd (Update env detector_rule m st))
        = (requests st ++ put :: more)%list
        /\ Method put = "PUT"
        /\ Path put = "/_plugins/_security_analytics/rules/"
                      ++ uritemplates.escape id
                      ++ "?category=" ++ uritemplates.escape category
                      ++ "&forced=true")
  /\ (exists delete,
        requests (snd (resourceOpensearchSaDetectorRuleDelete env m st))
        = (requests st ++ [delete])%list
        /\ Method delete = "DELETE"
        /\ Path delete = "/_plugins/_security_analytics/rules/"
                         ++ uritemplates.escape id ++ "?forced=true")
  /\ (forall value,
        uritemplates.all_chars uritemplates.unreserved value = true ->
        uritemplates.escape value = value)
  /\ (category = "cloudtrail" ->
      exists post more,
        requests (snd (Create env detector_rule m st))
        = (requests st ++ post :: more)%list
        /\ Path post = "/_plugins/_security_analytics/rules?category=cloudtrail").
Proof.
  intros Hclient id category.
  assert (Hcreate : exists more,
             requests (snd (Create env detector_rule m st))
             = (requests st ++ create_request detector_rule (rd st) :: more)%list).
  { rewrite create_steps, send_create_steps, Hclient; cbv zeta.
    destruct (PerformRequest env osClient _ (world st)) as [r w].
    destruct (after_send env detector_rule r) as [new_id|err].
    - destruct (read_requests detector_rule m
                  (with_id new_id
                     (after_request (create_request detector_rule (rd st)) w st)))
        as [more Hmore].
      exists more. rewrite Hmore. cbn. now rewrite <- app_assoc.
    - exists []. reflexivity. }
  repeat apply conj.
  - destruct Hcreate as [more Hmore].
    exists (create_request detector_rule (rd st)), more. now repeat split.
  - rewrite update_steps, send_update_steps, Hclient; cbv zeta.
    destruct (PerformRequest env osClient _ (world st)) as [r w].
    destruct (after_send env detector_rule r) as [new_id|err].
    + destruct (read_requests detector_rule m
                  (after_request (update_request detector_rule (rd st)) w st))
        as [more Hmore].
      exists (update_request detector_rule (rd st)), more.
      rewrite Hmore. cbn. rewrite <- app_assoc. now repeat split.
    + exists (update_request detector_rule (rd st)), []. now repeat split.
  - rewrite rule_delete_steps, Hclient; cbv zeta.
    destruct (PerformRequest env osClient _ (world st)) as [r w].
    exists (rule_delete_request (rd st)). now repeat split.
  - exact escape_unreserved.
  - intros Hcat. destruct Hcreate as [more Hmore].
    exists (create_request detector_rule (rd st)), more.
    split; [exact Hmore |].
    cbn. fold category. now rewrite Hcat.
Qed.

(** *** Beyond the listed properties: requests, frames and compositions *)

Lemma read_requests_exact (k : kind) (m : ProviderConf env) (st : State env) :
  requests (snd (Read env k m st))
  = (requests st ++ match getClient env m with
                    | inl _ => []
                    | inr _ => [lookup_request env (search_endpoint k) (Id (rd st))]
                    end)%list.
Proof.
  pose proof (lookup_requests k (Id (rd st)) m st) as Hreq.
  rewrite read_steps.
  destruct (lookup_by_id env k (Id (rd st)) m st) as [[[f|err]|msg] st1]; cbn in Hreq.
  - destruct k; unfold d_Set, with_id.
    + destruct (NormalizeJsonString env _); [exact Hreq |].
      destruct (WriteField env _ _); exact Hreq.
    + destruct (WriteField env _ _); exact Hreq.
  - destruct (IsSearchNotFound env err); exact Hreq.
  - exact Hreq.
Qed.

Lemma delete_steps (k : kind) (m : ProviderConf env) (st : State env) :
  Delete env k m st =
  match getClient env m with
  | inl e => (Done (Some (clientError e)), st)
  | inr osClient =>
      let options := delete_request k (rd st) in
      let (r, w) := PerformRequest env osClient options (world st) in
      (Done match r with inl e => Some (clientError e) | inr _ => None end,
       after_request options w st)
  end.
Proof.
  destruct k; [| apply rule_delete_steps].
  unfold Delete, resourceOpensearchSaDetectorDelete, bind, d_Id; cbn.
  rewrite expand_detector. unfold delete_request. run_code; reflexivity.
Qed.


(** X2. Read of either kind writes no attribute but [body]: for every
    other key and every outcome, the stored value is the one from before. *)
Theorem read_keeps_other_attributes (k : kind) (key : string)
    (m : ProviderConf env) (st : State env) :
  key <> "body" ->
  fields (rd (snd (Read env k m st))) !! key = fields (rd st) !! key.
Proof.
  intros Hkey.
  pose proof (lookup_frame k (Id (rd st)) m st) as Hframe.
  rewrite read_steps.
  destruct (lookup_by_id env k (Id (rd st)) m st) as [[[f|err]|msg] st1];
    cbn in Hframe.
  - destruct k; unfold d_Set, with_id.
    + destruct (NormalizeJsonString env _); cbn; [now rewrite Hframe |].
      destruct (WriteField env "body" _); cbn; rewrite Hframe; [reflexivity |].
      now rewrite lookup_insert_ne.
    + destruct (WriteField env "body" _); cbn; rewrite Hframe; [reflexivity |].
      now rewrite lookup_insert_ne.
  - destruct (IsSearchNotFound env err); cbn; now rewrite Hframe.
  - cbn. now rewrite Hframe.
Qed.

(** X3. When the provider configuration gives no client, no operation of
    either kind issues a request or changes the world, and Create, Update
    and Delete return the factory's error as it is with the resource data
    untouched.  Read hands that error to the NotFound predicate like any
    other: it returns it unchanged unless the predicate accepts it, in
    which case it clears the ID and returns nil. *)
Theorem no_client_no_effect (k : kind) (m : ProviderConf env) (st : State env)
    (e : ClientError env) :
  getClient env m = inl e ->
  Create env k m st = (Done (Some (clientError e)), st)
  /\ Update env k m st = (Done (Some (clientError e)), st)
  /\ Delete env k m st = (Done (Some (clientError e)), st)
  /\ Read env k m st
     = (if IsSearchNotFound env (clientError e)
        then (Done None, with_id EmptyString st)
        else (Done (Some (clientError e)), st)).
Proof.
  intros Hclient. repeat apply conj.
  - now rewrite create_steps, send_create_steps, Hclient.
  - now rewrite update_steps, send_update_steps, Hclient.
  - now rewrite delete_steps, Hclient.
  - now rewrite read_steps, lookup_steps, Hclient.
Qed.

(** X4. With a client, Create of either kind issues the POST with the
    configured body and, only when the response to it was received and
    decoded, one search for the ID of that response; nothing else.  The
    search asks for the ID the server returned, not for a local one. *)
Theorem create_requests (k : kind) (m : ProviderConf env) (st : State env)
    (osClient : Client env) (r : ClientError env + Response) (w : World env) :
  getClient env m = inr osClient ->
  PerformRequest env osClient (create_request k (rd st)) (world st) = (r, w) ->
  Body (create_request k (rd st)) = attribute (rd st) "body"
  /\ requests (snd (Create env k m st))
     = (requests st ++ create_request k (rd st)
          :: match after_send env k r with
             | Ok id => [lookup_request env (search_endpoint k) id]
             | Err _ => []
             end)%list.
Proof.
  intros Hclient Hperform. split; [now destruct k |].
  rewrite create_steps, send_create_steps, Hclient; cbv zeta; rewrite Hperform.
  destruct (after_send env k r) as [id|err]; [| reflexivity].
  rewrite read_requests_exact, Hclient. cbn. now rewrite <- app_assoc.
Qed.

(** X5. With a client, Update of either kind issues the PUT and, only
    when the response to it was received and decoded, one search; the
    search asks for the local ID, the ID of the PUT response is not used. *)
Theorem update_requests (k : kind) (m : ProviderConf env) (st : State env)
    (osClient : Client env) (r : ClientError env + Response) (w : World env) :
  getClient env m = inr osClient ->
  PerformRequest env osClient (update_request k (rd st)) (world st) = (r, w) ->
  requests (snd (Update env k m st))
  = (requests st ++ update_request k (rd st)
       :: match after_send env k r with
          | Ok _ => [lookup_request env (search_endpoint k) (Id (rd st))]
          | Err _ => []
          end)%list.
Proof.
  intros Hclient Hperform.
  rewrite update_steps, send_update_steps, Hclient; cbv zeta; rewrite Hperform.
  destruct (after_send env k r) as [id|err]; [| reflexivity].
  rewrite read_requests_exact, Hclient. cbn. now rewrite <- app_assoc.
Qed.

(** X6. Delete of either kind never changes the resource data: the ID
    stays set whatever the outcome.  With a client it issues exactly one
    DELETE with an empty body, returns nil when the client reports no
    error and the client's error as it is otherwise; the response is not
    read and NotFound is not treated apart. *)
Theorem delete_outcome (k : kind) (m : ProviderConf env) (st : State env) :
  rd (snd (Delete env k m st)) = rd st
  /\ (forall osClient r w,
        getClient env m = inr osClient ->
        PerformRequest env osClient (delete_request k (rd st)) (world st) = (r, w) ->
        Method (delete_request k (rd st)) = "DELETE"
        /\ Body (delete_request k (rd st)) = EmptyString
        /\ requests (snd (Delete env k m st))
           = (requests st ++ [delete_request k (rd st)])%list
        /\ fst (Delete env k m st)
           = Done match r with
                  | inl e => Some (clientError e)
                  | inr _ => None
                  end).
Proof.
  rewrite delete_steps. split.
  - destruct (getClient env m); [reflexivity |].
    cbv zeta. now destruct (PerformRequest env _ _ _).
  - intros osClient r w Hclient Hperform. rewrite Hclient; cbv zeta; rewrite Hperform.
    destruct k; repeat split.
Qed.

(** X7. When the lookup of Read finds a hit, Read sets the local ID to the
    ID of the hit, whatever ID it asked for, before it does anything else:
    the ID is the hit's also when Read then fails.  Read returns nil only
    after writing [body]; when it returns an error the attributes are as
    before. *)
Theorem read_found (k : kind) (m : ProviderConf env) (st st1 : State env)
    (f : found) :
  lookup_by_id env k (Id (rd st)) m st = (Done (Ok f), st1) ->
  Id (rd (snd (Read env k m st))) = found_ID f
  /\ (fst (Read env k m st) = Done None ->
      exists text, fields (rd (snd (Read env k m st)))
                   = <["body" := text]> (fields (rd st)))
  /\ (forall err, fst (Read env k m st) = Done (Some err) ->
      fields (rd (snd (Read env k m st))) = fields (rd st)).
Proof.
  intros Hlookup.
  pose proof (lookup_frame k (Id (rd st)) m st) as Hframe.
  rewrite Hlookup in Hframe; cbn in Hframe.
  rewrite read_steps, Hlookup.
  assert (Hfields : fields (rd st1) = fields (rd st)) by now rewrite Hframe.
  destruct k; unfold d_Set, with_id.
  - destruct (NormalizeJsonString env _) as [text|normalized]; cbn.
    + rewrite Hfields.
      split; [reflexivity | split; [discriminate | reflexivity]].
    + destruct (WriteField env "body" _) as [msg|text]; cbn; rewrite Hfields.
      * split; [reflexivity | split; [discriminate | reflexivity]].
      * split; [reflexivity | split; [intros _; now exists text | discriminate]].
  - destruct (WriteField env "body" _) as [msg|text]; cbn; rewrite Hfields.
    + split; [reflexivity | split; [discriminate | reflexivity]].
    + split; [reflexivity | split; [intros _; now exists text | discriminate]].
Qed.

(** X8. When the POST of Create succeeded and the search that follows
    fails with an error the NotFound predicate accepts (no hit for the new
    ID), Create returns nil and leaves the ID empty; Update after a
    successful PUT does the same.  Success of Create or Update therefore
    does not mean that an ID is set. *)
Theorem readback_not_found (k : kind) (m : ProviderConf env) (st : State env) :
  (forall id st1 err st2,
      send_create env k m st = (Done (Ok id), st1) ->
      lookup_by_id env k id m (with_id id st1) = (Done (Err err), st2) ->
      IsSearchNotFound env err = true ->
      Create env k m st = (Done None, with_id EmptyString st2)
      /\ Id (rd (snd (Create env k m st))) = EmptyString)
  /\ (forall st1 err st2,
        send_update env k m st = (Done (Ok tt), st1) ->
        lookup_by_id env k (Id (rd st)) m st1 = (Done (Err err), st2) ->
        IsSearchNotFound env err = true ->
        Update env k m st = (Done None, with_id EmptyString st2)
        /\ Id (rd (snd (Update env k m st))) = EmptyString).
Proof.
  split.
  - intros id st1 err st2 Hsend Hlookup Hnf.
    rewrite create_steps, Hsend, read_steps.
    change (Id (rd (with_id id st1))) with id.
    rewrite Hlookup, Hnf. now split.
  - intros st1 err st2 Hsend Hlookup Hnf.
    pose proof (send_update_frame k m st) as Hframe.
    rewrite Hsend in Hframe; cbn in Hframe.
    rewrite update_steps, Hsend, read_steps, Hframe, Hlookup, Hnf. now split.
Qed.

(** *** Paths *)





(** *** Get of a detector *)

(** X10. Get of a detector issues one GET with an empty body at the path
    of the ID and leaves the resource data alone.  It reads the response as
    the POST of Create reads its own: for the same answer of the client
    both return the same result, the client's error, the decoder's error
    with the body, or the decoded response with its detector normalized. *)
Theorem get_like_post (id : string) (m : ProviderConf env) (st st2 : State env)
    (osClient : Client env) (r : ClientError env + Response) (w w2 : World env) :
  getClient env m = inr osClient ->
  PerformRequest env osClient (get_request id) (world st) = (r, w) ->
  PerformRequest env osClient (create_request detector (rd st2)) (world st2) = (r, w2) ->
  snd (resourceOpensearchSaDetectorGet env id m st) = after_request (get_request id) w st
  /\ fst (resourceOpensearchSaDetectorGet env id m st)
     = fst (resourceOpensearchPostSaDetector env m st2).
Proof.
  intros Hclient Hget Hpost.
  unfold resourceOpensearchSaDetectorGet.
  rewrite expand_detector, Hclient.
  unfold resourceOpensearchPostSaDetector, bind, ret, d_Get, performRequest; cbn.
  rewrite Hclient; cbn.
  unfold get_request in Hget. rewrite Hget.
  unfold create_request, attribute in Hpost. rewrite Hpost.
  destruct r as [e|res]; cbn; [now split |].
  destruct (Unmarshal_SaDetectorResponse env (ResponseBody res)); now split.
Qed.

(** *** The checks of the acceptance test *)

(** X11. The check that a rule exists passes only when the state has the
    resource under the given name with an ID that is not empty and the
    lookup of that ID returned a rule.  When the name is missing or the ID
    is empty it fails without a request. *)
Theorem exists_check (name : string) (resources : list (string * ResourceState))
    (meta : ProviderConf env) (st : State env) :
  (fst (testCheckOpensearchSaCustomRuleExists env name resources meta st) = Done None ->
   exists rs res st',
     resources_lookup name resources = Some rs
     /\ rs_Primary_ID rs <> EmptyString
     /\ resourceOpensearchSaDetectorRuleGet env (rs_Primary_ID rs) meta st
        = (Done (Ok res), st'))
  /\ (resources_lookup name resources = None ->
      testCheckOpensearchSaCustomRuleExists env name resources meta st
      = (Done (Some (errorString ("Not found: " ++ name))), st))
  /\ (forall rs,
        resources_lookup name resources = Some rs ->
        rs_Primary_ID rs = EmptyString ->
        testCheckOpensearchSaCustomRuleExists env name resources meta st
        = (Done (Some (errorString "No rule ID is set")), st)).
Proof.
  unfold testCheckOpensearchSaCustomRuleExists.
  repeat apply conj.
  - destruct (resources_lookup name resources) as [rs|]; [| discriminate].
    destruct (String.eqb_spec (rs_Primary_ID rs) EmptyString) as [Hid|Hid];
      [discriminate |].
    unfold bind, ret.
    destruct (resourceOpensearchSaDetectorRuleGet env (rs_Primary_ID rs) meta st)
      as [[[res|err]|msg] st'] eqn:Hget; try discriminate.
    intros _. now exists rs, res, st'.
  - now intros ->.
  - intros rs -> ->. reflexivity.
Qed.

(** X12. The check that the rules are destroyed looks up one rule at
    most: the first resource of the rule type that the loop meets; the
    resources after it are not examined.  It passes when that lookup fails
    with any error whatever, not only NotFound, so it passes when no client
    can be had; it fails only when the lookup returns a rule.  Without a
    resource of the rule type it passes without a request. *)
Theorem destroy_check (quote : string -> string)
    (resources : list (string * ResourceState)) (meta : ProviderConf env)
    (st : State env) :
  (first_rule resources = None ->
   testCheckOpensearchSaCustomRuleDestroy env quote resources meta st = (Done None, st))
  /\ (forall rs,
        first_rule resources = Some rs ->
        testCheckOpensearchSaCustomRuleDestroy env quote resources meta st
        = match resourceOpensearchSaDetectorRuleGet env (rs_Primary_ID rs) meta st with
          | (Done (Err _), st') => (Done None, st')
          | (Done (Ok _), st') =>
              (Done (Some (errorString ("Rule " ++ quote (rs_Primary_ID rs)
                                          ++ " still exists"))), st')
          | (Panic msg, st') => (Panic msg, st')
          end)
  /\ (forall e,
        getClient env meta = inl e ->
        testCheckOpensearchSaCustomRuleDestroy env quote resources meta st
        = (Done None, st)).
Proof.
  assert (Hfirst : forall rs,
             first_rule resources = Some rs ->
             testCheckOpensearchSaCustomRuleDestroy env quote resources meta st
             = match resourceOpensearchSaDetectorRuleGet env (rs_Primary_ID rs) meta st with
               | (Done (Err _), st') => (Done None, st')
               | (Done (Ok _), st') =>
                   (Done (Some (errorString ("Rule " ++ quote (rs_Primary_ID rs)
                                               ++ " still exists"))), st')
               | (Panic msg, st') => (Panic msg, st')
               end).
  { induction resources as [| [n rs0] rest IH]; [discriminate |].
    intros rs. cbn [first_rule testCheckOpensearchSaCustomRuleDestroy].
    destruct (String.eqb (rs_Type rs0) rule_type); cbn [negb].
    - intros [= ->]. unfold bind, ret.
      destruct (resourceOpensearchSaDetectorRuleGet env (rs_Primary_ID rs) meta st)
        as [[[res|err]|msg] st']; reflexivity.
    - apply IH. }
  assert (Hnone : first_rule resources = None ->
                  testCheckOpensearchSaCustomRuleDestroy env quote resources meta st
                  = (Done None, st)).
  { induction resources as [| [n rs0] rest IH]; [reflexivity |].
    cbn [first_rule testCheckOpensearchSaCustomRuleDestroy].
    destruct (String.eqb (rs_Type rs0) rule_type); cbn [negb]; [discriminate |].
    intros Hrest. apply IH; [| exact Hrest].
    intros rs Hrs. rewrite Hrest in Hrs. discriminate. }
  repeat apply conj; [exact Hnone | exact Hfirst |].
  intros e Hclient.
  destruct (first_rule resources) as [rs|] eqn:Hrs; [| now apply Hnone].
  rewrite (Hfirst rs eq_refl).
  unfold resourceOpensearchSaDetectorRuleGet. now rewrite Hclient.
Qed.

End Properties.

(** ** The scenarios, run against the test double *)

Import TestDouble.

(** The scenario of the specification: the search for [xyz] answers with no
    hit, and Read drops the ID without an error. *)
Lemma read_lookup_failure_witness :
  let st := start (resource "xyz" detector_body EmptyString) [inr no_hits] in
  let st1 := snd (lookup_by_id env detector "xyz" ready st) in
  lookup_by_id env detector "xyz" ready st = (Done (Err (no_results "xyz")), st1)
  /\ Read env detector ready st = (Done None, with_id EmptyString st1)
  /\ Id (rd (with_id EmptyString st1)) = EmptyString.
Proof.
  cbv zeta. split; [reflexivity |].
  split.
  - apply (read_lookup_failure env detector ready
             (start (resource "xyz" detector_body EmptyString) [inr no_hits])
             _ (no_results "xyz")); reflexivity.
  - reflexivity.
Defined.

Lemma not_found_distinguished_witness :
  let st := start known_detector [inr no_hits] in
  lookup_by_id env detector "xyz" ready st
  = (Done (Err (no_results "xyz")), snd (lookup_by_id env detector "xyz" ready st))
  /\ IsSearchNotFound_spec (no_results "xyz" : error string) = true.
Proof.
  cbv zeta.
  apply (proj1 (not_found_distinguished env detector "xyz" ready
                  (start known_detector [inr no_hits]))
           {| Hits_Total_Value := 0; Hits_Hits := [] |}).
  - exists tt, {| ResponseBody := no_hits |}, [].
    split; [| split; [| split]]; reflexivity.
  - reflexivity.
Defined.

Example lookup_query_bytes :
  Body (lookup_request env (search_endpoint detector) "xyz")
  = json_text "{'query':{'ids':{'values':['xyz']}},'size':1}".
Proof. reflexivity. Qed.

Lemma rule_requests_witness :
  let st := start (new_rule "cloudtrail") [inl "connection refused"] in
  exists post more,
    requests (snd (Create env detector_rule ready st)) = post :: more
    /\ Path post = "/_plugins/_security_analytics/rules?category=cloudtrail".
Proof.
  cbv zeta.
  destruct (rule_requests env ready
              (start (new_rule "cloudtrail") [inl "connection refused"]) tt
              eq_refl) as (_ & _ & _ & _ & Hcloudtrail).
  destruct (Hcloudtrail eq_refl) as (post & more & Hrequests & Hpath).
  exists post, more. split; [exact Hrequests | exact Hpath].
Defined.

(** C4, where it fails: a category with a space is not in the path as it
    is configured. *)
Lemma rule_create_category_encoded :
  let st := start (new_rule "aws s3") [inl "connection refused"] in
  map Path (requests (snd (Create env detector_rule ready st)))
  = ["/_plugins/_security_analytics/rules?category=aws%20s3"]
  /\ contains "aws s3" "/_plugins/_security_analytics/rules?category=aws%20s3" = false.
Proof. split; reflexivity. Qed.

Lemma lookup_hit_witness :
  let st := start known_detector [inr detector_hit] in
  lookup_by_id env detector "abc123" ready st
  = (Done (Ok {| found_ID := "abc123"; found_Version := 1;
                 found_Document :=
                   Some [("name", JSON.Str "t1"); ("type", JSON.Str "sigma")] |}),
     snd (lookup_by_id env detector "abc123" ready st)).
Proof.
  cbv zeta.
  apply (lookup_hit env detector "abc123" ready
           (start known_detector [inr detector_hit])
           (snd (lookup_by_id env detector "abc123" ready
                   (start known_detector [inr detector_hit])))
           {| Hits_Total_Value := 1;
              Hits_Hits := [{| hit_ID := "abc123"; hit_Version := 1;
                               hit_Source :=
                                 json_text "{'name':'t1','type':'sigma'}" |}] |}
           {| hit_ID := "abc123"; hit_Version := 1;
              hit_Source := json_text "{'name':'t1','type':'sigma'}" |}
           [] (Some [("name", JSON.Str "t1"); ("type", JSON.Str "sigma")])).
  - exists tt, {| ResponseBody := detector_hit |}, [].
    split; [| split; [| split]]; reflexivity.
  - discriminate.
  - reflexivity.
  - reflexivity.
Defined.

(** C5, where it fails: the source of a detector hit that has a member
    [detector] is kept whole, with that member inside; the member is not
    what the lookup returns. *)
Lemma detector_lookup_keeps_whole_source :
  let st := start known_detector [inr wrapped_hit] in
  fst (lookup_by_id env detector "abc123" ready st)
  = Done (Ok {| found_ID := "abc123"; found_Version := 1;
                found_Document :=
                  Some [("detector", JSON.Object [("name", JSON.Str "t1")])] |})
  /\ fst (resourceOpensearchSaDetectorSearch env "abc123" ready st)
     = Done (Ok {| SaDetectorResponse.Version := 1;
                   SaDetectorResponse.ID := "abc123";
                   SaDetectorResponse.Detector :=
                     Some [("detector", JSON.Object [("name", JSON.Str "t1")])] |})
  /\ Some [("detector", JSON.Object [("name", JSON.Str "t1")])]
     <> Some [("name", JSON.Str "t1")].
Proof. split; [reflexivity | split; [reflexivity | discriminate]]. Qed.

Lemma create_update_failures_witness :
  let st := start new_detector [inl "connection refused"] in
  let st1 := snd (send_create env detector ready st) in
  send_create env detector ready st
  = (Done (Err (clientError "connection refused")), st1)
  /\ Create env detector ready st
     = (Done (Some (clientError "connection refused")), st1)
  /\ rd st1 = rd st.
Proof.
  cbv zeta. split; [reflexivity |].
  apply (proj1 (create_update_failures env detector ready
                  (start new_detector [inl "connection refused"]))).
  reflexivity.
Defined.

(** C6, where it fails: the POST of Create succeeds, the lookup that
    follows meets a transport error; Create returns that error and the ID
    of the POST response is already set. *)
Lemma create_readback_failure_keeps_id :
  let st := start new_detector [inr detector_created; inl "connection reset"] in
  fst (Create env detector ready st) = Done (Some (clientError "connection reset"))
  /\ Id (rd st) = EmptyString
  /\ Id (rd (snd (Create env detector ready st))) = "abc123".
Proof. cbv zeta. repeat (split; [reflexivity |]). reflexivity. Qed.

Lemma decode_errors_witness :
  let st := start new_detector [inr not_json] in
  send_create env detector ready st
  = (Done (Err (errorString
                  ("error unmarshalling detector body: "
                   ++ "invalid character '<' looking for beginning of value"
                   ++ ": " ++ "[60 104 116 109 108 62]"))),
     after_request (env := env) (create_request detector (rd st)) [] st).
Proof.
  cbv zeta.
  apply (proj1 (decode_errors env detector ready (start new_detector [inr not_json])
                  tt {| ResponseBody := not_json |} []
                  "invalid character '<' looking for beginning of value" eq_refl));
    reflexivity.
Defined.

(** C7, where it fails: the response to the search is not JSON; the error
    of the lookup has the decoder's words and neither the body nor its
    bytes. *)
Lemma search_decode_error_omits_body :
  let text :=
    "error unmarshalling search result: invalid character '<' looking for beginning of value" in
  fst (lookup_by_id env detector "abc123" ready (start known_detector [inr not_json]))
  = Done (Err (errorString text))
  /\ fst (resourceOpensearchSaDetectorRuleGet env "r1" ready
            (start known_rule [inr not_json]))
     = Done (Err (errorString text))
  /\ contains not_json text = false
  /\ contains (fmt.bytes not_json) text = false.
Proof. cbv zeta. repeat (split; [reflexivity |]). reflexivity. Qed.

Lemma rule_read_sets_body_witness :
  let st := start known_rule [inr rule_hit] in
  let st2 := snd (resourceOpensearchSaDetectorRuleRead env ready st) in
  resourceOpensearchSaDetectorRuleRead env ready st = (Done None, st2)
  /\ exists text,
      write_field "body" (JSON.Str "title: Test") = inr text
      /\ fields (rd st2) = <["body" := text]> (fields (rd st))
      /\ Id (rd st2) = "r1".
Proof.
  cbv zeta. split; [reflexivity |].
  apply (rule_read_sets_body env ready (start known_rule [inr rule_hit])
           (snd (resourceOpensearchSaDetectorRuleGet env "r1" ready
                   (start known_rule [inr rule_hit])))
           _
           {| SaDetectorRuleResponse.Version := 2;
              SaDetectorRuleResponse.ID := "r1";
              SaDetectorRuleResponse.Rule :=
                Some [("category", JSON.Str "cloudtrail");
                      ("rule", JSON.Str "title: Test")] |});
    reflexivity.
Defined.

Lemma first_hit_guard_witness :
  let st := start known_detector [inr total_without_hits] in
  lookup_by_id env detector "abc123" ready st
  = (Panic index_panic, snd (lookup_by_id env detector "abc123" ready st)).
Proof.
  cbv zeta.
  apply (proj1 (first_hit_guard env detector "abc123" ready
                  (start known_detector [inr total_without_hits]) _
                  {| Hits_Total_Value := 1; Hits_Hits := [] |}
                  (ex_intro _ tt
                     (ex_intro _ {| ResponseBody := total_without_hits |}
                        (ex_intro _ []
                           (conj eq_refl (conj eq_refl (conj eq_refl eq_refl)))))))).
  split; [discriminate | reflexivity].
Defined.

(** *** The scenarios of the specification *)

Example scenario_create_detector :
  let r := Create env detector ready
             (start new_detector [inr detector_created; inr detector_hit]) in
  fst r = Done None
  /\ Id (rd (snd r)) = "abc123"
  /\ fields (rd (snd r)) !! "body" = Some (json_text "{'name':'t1','type':'sigma'}")
  /\ normalize_json detector_body = inr (json_text "{'name':'t1','type':'sigma'}").
Proof. cbv zeta. repeat (split; [reflexivity |]). reflexivity. Qed.

Example scenario_search_no_hits :
  fst (lookup_by_id env detector "xyz" ready (start known_detector [inr no_hits]))
  = Done (Err (no_results "xyz"))
  /\ IsSearchNotFound_spec (no_results "xyz" : error string) = true.
Proof. split; reflexivity. Qed.

Example scenario_create_rule_path :
  map Path (requests (snd (Create env detector_rule ready
                             (start (new_rule "cloudtrail") [inl "connection refused"]))))
  = ["/_plugins/_security_analytics/rules?category=cloudtrail"].
Proof. reflexivity. Qed.

Example scenario_update_rule_path :
  map (fun o => (Method o, Path o))
      (requests (snd (Update env detector_rule ready
                        (start known_rule [inl "connection refused"]))))
  = [("PUT", "/_plugins/_security_analytics/rules/r1?category=cloudtrail&forced=true")].
Proof. reflexivity. Qed.

Example scenario_expand_escapes :
  uritemplates.Expand rule_update_template [("id", "r 1"); ("category", "cloudtrail")]
  = inr "/_plugins/_security_analytics/rules/r%201?category=cloudtrail&forced=true".
Proof. reflexivity. Qed.

Example scenario_fmt_bytes : fmt.bytes "<html>" = "[60 104 116 109 108 62]".
Proof. reflexivity. Qed.

(** *** More scenarios *)

Lemma read_keeps_other_attributes_witness :
  let st := start known_rule [inr rule_hit] in
  fields (rd (snd (Read env detector_rule ready st))) !! "category"
  = fields (rd st) !! "category".
Proof.
  cbv zeta.
  apply (read_keeps_other_attributes env detector_rule "category" ready
           (start known_rule [inr rule_hit])).
  discriminate.
Defined.

Lemma no_client_no_effect_witness :
  let st := start new_detector [inr detector_created] in
  Create env detector (inl "no client") st
  = (Done (Some (clientError "no client")), st).
Proof.
  cbv zeta.
  exact (proj1 (no_client_no_effect env detector (inl "no client")
                  (start new_detector [inr detector_created]) "no client" eq_refl)).
Defined.

Lemma create_requests_witness :
  let st := start new_detector [inr detector_created; inr detector_hit] in
  requests (snd (Create env detector ready st))
  = [create_request detector new_detector;
     lookup_request env detectors_search_path "abc123"].
Proof.
  cbv zeta.
  exact (proj2 (create_requests env detector ready
                  (start new_detector [inr detector_created; inr detector_hit])
                  tt (inr {| ResponseBody := detector_created |})
                  [inr detector_hit] eq_refl eq_refl)).
Defined.

Lemma update_requests_witness :
  let d := resource "d9" detector_body EmptyString in
  let st := start d [inr detector_created; inr detector_hit] in
  requests (snd (Update env detector ready st))
  = [update_request detector d; lookup_request env detectors_search_path "d9"].
Proof.
  cbv zeta.
  exact (update_requests env detector ready
           (start (resource "d9" detector_body EmptyString)
              [inr detector_created; inr detector_hit])
           tt (inr {| ResponseBody := detector_created |})
           [inr detector_hit] eq_refl eq_refl).
Defined.

Lemma delete_outcome_witness :
  let st := start known_detector [inl "503 Service Unavailable"] in
  fst (Delete env detector ready st)
  = Done (Some (clientError "503 Service Unavailable"))
  /\ Id (rd (snd (Delete env detector ready st))) = "abc123".
Proof.
  cbv zeta. split.
  - apply (proj2 (delete_outcome env detector ready
                    (start known_detector [inl "503 Service Unavailable"]))
             tt (inl "503 Service Unavailable") [] eq_refl eq_refl).
  - now rewrite (proj1 (delete_outcome env detector ready
                          (start known_detector [inl "503 Service Unavailable"]))).
Defined.

Lemma read_found_witness :
  let st := start (resource "old" detector_body EmptyString) [inr detector_hit] in
  Id (rd (snd (Read env detector ready st))) = "abc123".
Proof.
  cbv zeta.
  apply (proj1 (read_found env detector ready
                  (start (resource "old" detector_body EmptyString) [inr detector_hit])
                  (snd (lookup_by_id env detector "old" ready
                          (start (resource "old" detector_body EmptyString)
                             [inr detector_hit])))
                  {| found_ID := "abc123"; found_Version := 1;
                     found_Document :=
                       Some [("name", JSON.Str "t1"); ("type", JSON.Str "sigma")] |}
                  eq_refl)).
Defined.

Lemma readback_not_found_witness :
  let st := start new_detector [inr detector_created; inr no_hits] in
  fst (Create env detector ready st) = Done None
  /\ Id (rd (snd (Create env detector ready st))) = EmptyString.
Proof.
  cbv zeta.
  destruct (proj1 (readback_not_found env detector ready
                     (start new_detector [inr detector_created; inr no_hits]))
              "abc123"
              (snd (send_create env detector ready
                      (start new_detector [inr detector_created; inr no_hits])))
              (no_results "abc123")
              (snd (lookup_by_id env detector "abc123" ready
                      (with_id "abc123"
                         (snd (send_create env detector ready
                                 (start new_detector
                                    [inr detector_created; inr no_hits]))))))
              eq_refl eq_refl eq_refl) as [Hcreate Hid].
  split; [now rewrite Hcreate | exact Hid].
Defined.

Lemma get_like_post_witness :
  let st := start known_detector [inr detector_created] in
  let st2 := start new_detector [inr detector_created] in
  fst (resourceOpensearchSaDetectorGet env "abc123" ready st)
  = fst (resourceOpensearchPostSaDetector env ready st2).
Proof.
  cbv zeta.
  exact (proj2 (get_like_post env "abc123" ready
                  (start known_detector [inr detector_created])
                  (start new_detector [inr detector_created])
                  tt (inr {| ResponseBody := detector_created |}) [] []
                  eq_refl eq_refl eq_refl)).
Defined.

Lemma exists_check_witness :
  testCheckOpensearchSaCustomRuleExists env "opensearch_sa_custom_rule.missing"
    state_resources ready (start known_rule [inr rule_hit])
  = (Done (Some (errorString "Not found: opensearch_sa_custom_rule.missing")),
     start known_rule [inr rule_hit]).
Proof.
  exact (proj1 (proj2 (exists_check env "opensearch_sa_custom_rule.missing"
                         state_resources ready (start known_rule [inr rule_hit])))
           eq_refl).
Defined.

Lemma destroy_check_witness :
  let st := start known_rule [inr rule_hit] in
  testCheckOpensearchSaCustomRuleDestroy env quote state_resources
    (inl "connection refused") st
  = (Done None, st).
Proof.
  cbv zeta.
  exact (proj2 (proj2 (destroy_check env quote state_resources
                         (inl "connection refused")
                         (start known_rule [inr rule_hit])))
           "connection refused" eq_refl).
Defined.

Example scenario_exists_check_passes :
  fst (testCheckOpensearchSaCustomRuleExists env "opensearch_sa_custom_rule.test_rule"
         state_resources ready (start known_rule [inr rule_hit]))
  = Done None.
Proof. reflexivity. Qed.

Example scenario_destroy_check_first_rule_only :
  let r := testCheckOpensearchSaCustomRuleDestroy env quote state_resources ready
             (start known_rule [inr no_hits; inr rule_hit]) in
  fst r = Done None
  /\ map Body (requests (snd r))
     = [json_text "{'query':{'ids':{'values':['r1']}},'size':1}"].
Proof. split; reflexivity. Qed.

Example scenario_delete_keeps_id :
  let r := Delete env detector_rule ready (start known_rule [inr "{}"]) in
  fst r = Done None
  /\ Id (rd (snd r)) = "r1"
  /\ map (fun o => (Method o, Path o)) (requests (snd r))
     = [("DELETE", "/_plugins/_security_analytics/rules/r1?forced=true")].
Proof. cbv zeta. repeat (split; [reflexivity |]). reflexivity. Qed.
